(** * ContractVault: the dispute-resolution pipeline of [dispute.py]

    A shallow embedding of [src/dispute.py] and the properties of its
    specification, followed by further properties of the module and of
    [upload_to_github] of [src/app.py].

    Conventions of the embedding.
    - A Python [str] is a Rocq [string] holding its UTF-8 encoding; the
      operations that count characters ([strip], slicing, iteration) work
      on the code points obtained by [utf8_chars].  A lone surrogate
      (U+D800 to U+DFFF), which a decoded JSON string can hold and UTF-8
      does not encode, is held as the three bytes ED A0-BF 80-BF.
    - A value decoded from JSON is a [pyval]; a [dict] is an association
      list in insertion order, looked up from the front.
    - A Python call that may raise returns a [res]; the functions of the
      module run in the monad [M], which also records the calls made
      (functions of the module entered, outbound requests sent).
    - Everything the module imports and does not define (the inference
      service, [requests], the Drive client, BeautifulSoup, [json.loads],
      [repr]) is a field of the record [env].
    - Of the [print] statements, those that format a value which can hold
      a lone surrogate, outside a [try], are modelled: the proof link at
      the head of a provider ([dispute.py], lines 31, 50, 63) and the file
      name, the address and the sha in [upload_to_github] ([app.py], lines
      48, 57, 63).  On a standard output that encodes as UTF-8 they raise
      for a string with a lone surrogate, and the exception leaves the
      function.  The other [print] statements are left out and taken not
      to raise: they format constants, numbers, values through their
      [repr], a value printed before, messages of exceptions and text
      decoded from a service's answer.
    - A recorded request holds what tells one request from another: the
      address, the query parameters and the body.  The [Authorization]
      header and the timeout, constants of the module, are left out. *)

From Stdlib Require Import String Ascii List Bool ZArith NArith Lia DecimalString.
From Stdlib Require Import Floats.PrimFloat.
Import ListNotations.

Local Open Scope list_scope.
Local Open Scope string_scope.

(* ================================================================= *)
(** ** Python strings *)

Module PyStr.

(** The characters the source writes with an escape. *)
Definition nl : string := String "010"%char EmptyString.
Definition dq : string := String "034"%char EmptyString.

(** [sub in s] for two strings. *)
Fixpoint contains (sub s : string) : bool :=
  if prefix sub s then true
  else match s with
       | EmptyString => false
       | String _ r => contains sub r
       end.

(** A byte [10xxxxxx] continues the code point begun before it. *)
Definition is_continuation (c : ascii) : bool :=
  let n := N_of_ascii c in (128 <=? n)%N && (n <? 192)%N.

(** The code points of a string, each as its own encoding. *)
Fixpoint utf8_chars (s : string) : list string :=
  match s with
  | EmptyString => []
  | String c r =>
      let rest := utf8_chars r in
      match r, rest with
      | String c' _, h :: t =>
          if is_continuation c' then String c h :: t
          else String c EmptyString :: rest
      | _, _ => String c EmptyString :: rest
      end
  end.

Definition bytes_of (ch : string) : list N :=
  map N_of_ascii (list_ascii_of_string ch).

(** A surrogate code point, in the three bytes that stand for it. *)
Definition is_surrogate (ch : string) : bool :=
  match bytes_of ch with
  | [237; b; _] => ((160 <=? b) && (b <=? 191))%N
  | _ => false
  end%N.

(** The string can be encoded as UTF-8: it holds no surrogate. *)
Definition encodable (s : string) : bool :=
  forallb (fun ch => negb (is_surrogate ch)) (utf8_chars s).

(** [Py_UNICODE_ISSPACE]: the characters [str.strip()] removes. *)
Definition is_space (ch : string) : bool :=
  match bytes_of ch with
  | [n] => ((9 <=? n) && (n <=? 13) || (28 <=? n) && (n <=? 32))%N
  | [194; n] => ((n =? 133) || (n =? 160))%N                (* U+0085, U+00A0 *)
  | [225; 154; 128] => true                                  (* U+1680 *)
  | [226; 128; n] =>                                         (* U+2000-200A, 2028, 2029, 202F *)
      ((128 <=? n) && (n <=? 138) || (n =? 168) || (n =? 169) || (n =? 175))%N
  | [226; 129; 159] => true                                  (* U+205F *)
  | [227; 128; 128] => true                                  (* U+3000 *)
  | _ => false
  end%N.

Fixpoint drop_while {A} (p : A -> bool) (l : list A) : list A :=
  match l with
  | [] => []
  | x :: r => if p x then drop_while p r else l
  end.

Definition strip_where (p : string -> bool) (s : string) : string :=
  String.concat EmptyString
    (rev (drop_while p (rev (drop_while p (utf8_chars s))))).

(** [s.strip()] *)
Definition strip (s : string) : string := strip_where is_space s.

(** [s.strip(chars)] *)
Definition strip_chars (chars s : string) : string :=
  strip_where (fun ch => existsb (String.eqb ch) (utf8_chars chars)) s.

(** [s.replace(old, new)] for a non-empty [old] (both call sites pass a
    literal): leftmost matches, not overlapping.  [skip] counts the bytes
    of a match still to be dropped. *)
Fixpoint replace_from (old new : string) (skip : nat) (s : string) : string :=
  match s with
  | EmptyString => EmptyString
  | String c r =>
      match skip with
      | S k => replace_from old new k r
      | O => if prefix old s
             then new ++ replace_from old new (String.length old - 1) r
             else String c (replace_from old new 0 r)
      end
  end.

Definition replace (old new s : string) : string := replace_from old new 0 s.

(** [s.split(sep)] for a one-character separator. *)
Fixpoint split (sep : ascii) (s : string) : list string :=
  match s with
  | EmptyString => [EmptyString]
  | String c r =>
      if Ascii.eqb c sep then EmptyString :: split sep r
      else match split sep r with
           | h :: t => String c h :: t
           | [] => [String c EmptyString]
           end
  end.

(** [sep.join(items)] *)
Definition join (sep : string) (items : list string) : string :=
  String.concat sep items.

Definition reversed (s : string) : string :=
  string_of_list_ascii (rev (list_ascii_of_string s)).

(** [s.endswith(suffix)] *)
Definition endswith (suffix s : string) : bool :=
  prefix (reversed suffix) (reversed s).

(** [s[:-n]] for [n > 0] *)
Definition drop_last (n : nat) (s : string) : string :=
  let cs := utf8_chars s in
  String.concat EmptyString (firstn (List.length cs - n) cs).

End PyStr.

(* ================================================================= *)
(** ** Exceptions and results *)

(** The module tells exceptions apart in one way only: [scrape_website_text]
    catches [requests.RequestException], every other handler catches
    [Exception]. *)
Inductive exn_class :=
| RequestException                 (* requests.RequestException and its subclasses *)
| OtherException (name : string).  (* any other subclass of Exception *)

Record exn := Exn { exn_cls : exn_class; exn_str : string (* str(e) *) }.

Inductive res (A : Type) : Type :=
| Ok (a : A)
| Raise (e : exn).
Arguments Ok {A} a.
Arguments Raise {A} e.

Definition res_bind {A B} (r : res A) (k : A -> res B) : res B :=
  match r with
  | Ok a => k a
  | Raise e => Raise e
  end.

Declare Scope res_scope.
Delimit Scope res_scope with res.
Notation "'let?' x := r 'in' k" := (res_bind r (fun x => k))
  (at level 10, x pattern, r at level 100, k at level 200) : res_scope.

Definition AttributeError (msg : string) : exn := Exn (OtherException "AttributeError") msg.
Definition TypeError (msg : string) : exn := Exn (OtherException "TypeError") msg.
Definition KeyError (msg : string) : exn := Exn (OtherException "KeyError") msg.
Definition IndexError (msg : string) : exn := Exn (OtherException "IndexError") msg.

(** [except Exception] and [except requests.RequestException] *)
Definition is_Exception (e : exn) : bool := true.
Definition is_RequestException (e : exn) : bool :=
  match exn_cls e with
  | RequestException => true
  | OtherException _ => false
  end.

(* ================================================================= *)
(** ** Python values *)

#[warnings="-register-all"]
Inductive pyval :=
| VNone
| VBool (b : bool)
| VInt (z : Z)
| VFloat (f : float)
| VStr (s : string)
| VList (l : list pyval)
| VDict (d : list (string * pyval)).

Module Py.

Local Open Scope res_scope.

(** [bool(v)], the test of [if v] and [if not v] *)
Definition truthy (v : pyval) : bool :=
  match v with
  | VNone => false
  | VBool b => b
  | VInt z => negb (z =? 0)%Z
  | VFloat f => negb (PrimFloat.eqb f PrimFloat.zero)
  | VStr s => negb (String.eqb s EmptyString)
  | VList l => match l with [] => false | _ => true end
  | VDict d => match d with [] => false | _ => true end
  end.

Fixpoint lookup (k : string) (d : list (string * pyval)) : option pyval :=
  match d with
  | [] => None
  | (k', v) :: r => if String.eqb k k' then Some v else lookup k r
  end.

(** [v.get(k, default)] *)
Definition get (v : pyval) (k : string) (default : pyval) : res pyval :=
  match v with
  | VDict d => Ok (match lookup k d with Some x => x | None => default end)
  | _ => Raise (AttributeError "object has no attribute 'get'")
  end.

(** [v[k]] for a string [k] *)
Definition getitem (v : pyval) (k : string) : res pyval :=
  match v with
  | VDict d => match lookup k d with
               | Some x => Ok x
               | None => Raise (KeyError k)
               end
  | VStr _ => Raise (TypeError "string indices must be integers")
  | VList _ => Raise (TypeError "list indices must be integers or slices, not str")
  | _ => Raise (TypeError "object is not subscriptable")
  end.

(** [v[0]]; the keys of a decoded object are strings, so [0] is never one *)
Definition getitem0 (v : pyval) : res pyval :=
  match v with
  | VList (x :: _) => Ok x
  | VList [] => Raise (IndexError "list index out of range")
  | VStr s => match PyStr.utf8_chars s with
              | ch :: _ => Ok (VStr ch)
              | [] => Raise (IndexError "string index out of range")
              end
  | VDict _ => Raise (KeyError "0")
  | _ => Raise (TypeError "object is not subscriptable")
  end.

(** [l[-n]] for a list of strings and [n > 0] *)
Definition index_from_end (l : list string) (n : nat) : res string :=
  match nth_error (rev l) (n - 1) with
  | Some x => Ok x
  | None => Raise (IndexError "list index out of range")
  end.

(** [l[0]] for a list of strings *)
Definition index0 (l : list string) : res string :=
  match l with
  | x :: _ => Ok x
  | [] => Raise (IndexError "list index out of range")
  end.

(** The items [for item in v] runs through. *)
Definition iter (v : pyval) : res (list pyval) :=
  match v with
  | VList l => Ok l
  | VStr s => Ok (map VStr (PyStr.utf8_chars s))
  | VDict d => Ok (map (fun kv => VStr (fst kv)) d)
  | _ => Raise (TypeError "object is not iterable")
  end.

(** [v == s] for a string [s] *)
Definition eq_str (v : pyval) (s : string) : bool :=
  match v with
  | VStr s' => String.eqb s' s
  | _ => false
  end.

(** [sub in v] for a string [sub] *)
Definition str_in (sub : string) (v : pyval) : res bool :=
  match v with
  | VStr s => Ok (PyStr.contains sub s)
  | VList l => Ok (existsb (fun x => eq_str x sub) l)
  | VDict d => Ok (existsb (fun kv => String.eqb (fst kv) sub) d)
  | _ => Raise (TypeError "argument is not iterable")
  end.

(** A method of [str] looked up on [v]: [v.strip], [v.split] *)
Definition as_str (v : pyval) : res string :=
  match v with
  | VStr s => Ok s
  | _ => Raise (AttributeError "object has no such attribute")
  end.

Fixpoint all_str (l : list pyval) : res (list string) :=
  match l with
  | [] => Ok []
  | VStr s :: r => let? ss := all_str r in Ok (s :: ss)
  | _ :: _ => Raise (TypeError "sequence item: expected str instance")
  end.

(** [sep.join(v)] *)
Definition join (sep : string) (v : pyval) : res string :=
  let? items := iter v in
  let? strs := all_str items in
  Ok (PyStr.join sep strs).

Fixpoint map_res {A B} (f : A -> res B) (l : list A) : res (list B) :=
  match l with
  | [] => Ok []
  | x :: r => let? y := f x in let? ys := map_res f r in Ok (y :: ys)
  end.

(** [[item['name'] for item in v]] *)
Definition names_of (v : pyval) : res pyval :=
  let? items := iter v in
  let? names := map_res (fun item => getitem item "name") items in
  Ok (VList names).

End Py.

(* ================================================================= *)
(** ** The collaborators and the call record *)

(** What [requests.get] hands back: [response.status_code],
    [response.content] and the outcome of [response.json()]. *)
Record response := {
  status_code : Z;
  content : string;
  json : res pyval
}.

(** The imported services, one function per call the module makes. *)
Record env := {
  (** [genai.GenerativeModel('gemini-1.5-flash').generate_content(prompt).text] *)
  generate_content : string -> res string;
  (** [requests.get(url, ...)] *)
  requests_get : pyval -> res response;
  (** [build('drive', 'v3', ...).files().list(q=query, fields="files(name)").execute()] *)
  drive_files_list : string -> res pyval;
  (** [BeautifulSoup(content, 'html.parser')], its script and style
      elements extracted, then [" ".join(soup.stripped_strings)] *)
  visible_text : string -> res string;
  (** [json.loads] *)
  json_loads : string -> res pyval;
  (** [repr] of a value that is not a [str] *)
  repr : pyval -> string
}.

Inductive func :=
| Fn_get_github_repo_contents
| Fn_get_google_drive_folder_contents
| Fn_scrape_website_text
| Fn_classify_freelancer_role
| Fn_verify_proof_with_role
| Fn_get_ai_dispute_verdict
| Fn_handle_dispute.

Inductive event :=
| Enter (f : func)                   (* a function of the module is called *)
| GenerateContent (prompt : string)  (* a prompt goes to the inference service *)
| RequestsGet (url : pyval)          (* an HTTP GET is sent *)
| DriveList (query : string).        (* a listing query goes to the Drive API *)

(** A computation: its result, and the calls made while it ran (also when
    it ended by raising). *)
Definition M (A : Type) : Type := (res A * list event)%type.

Definition result {A} (m : M A) : res A := fst m.
Definition calls {A} (m : M A) : list event := snd m.

Definition ret {A} (a : A) : M A := (Ok a, []).
Definition lift {A} (r : res A) : M A := (r, []).
Definition tell (e : event) : M unit := (Ok tt, [e]).

Definition bind {A B} (m : M A) (k : A -> M B) : M B :=
  match m with
  | (Ok a, t) => let (r, t') := k a in (r, (t ++ t')%list)
  | (Raise e, t) => (Raise e, t)
  end.

(** [try: body  except <class> as e: handler e] *)
Definition try_except {A} (body : M A) (catches : exn -> bool) (handler : exn -> M A) : M A :=
  match body with
  | (Ok a, t) => (Ok a, t)
  | (Raise e, t) =>
      if catches e then let (r, t') := handler e in (r, (t ++ t')%list)
      else (Raise e, t)
  end.

Declare Scope py_scope.
Delimit Scope py_scope with py.
Notation "x <- c ;; k" := (bind c (fun x => k))
  (at level 61, c at next level, right associativity) : py_scope.
Notation "c ;; k" := (bind c (fun _ => k))
  (at level 61, right associativity) : py_scope.
Local Open Scope py_scope.

Definition call_generate_content (w : env) (prompt : string) : M string :=
  tell (GenerateContent prompt) ;; lift (generate_content w prompt).

Definition call_requests_get (w : env) (url : pyval) : M response :=
  tell (RequestsGet url) ;; lift (requests_get w url).

Definition call_drive_files_list (w : env) (query : string) : M pyval :=
  tell (DriveList query) ;; lift (drive_files_list w query).

(** [response.raise_for_status()]: an [HTTPError], which is a
    [RequestException], for a 4xx or 5xx status. *)
Definition raise_for_status (r : response) : res unit :=
  if ((400 <=? status_code r) && (status_code r <? 600))%Z
  then Raise (Exn RequestException "HTTPError")
  else Ok tt.

(** [str(v)], also what an f-string or [str.format] puts for [{v}] *)
Definition py_str (w : env) (v : pyval) : string :=
  match v with
  | VStr s => s
  | _ => repr w v
  end.

(** [print(f"... {link}")] ([dispute.py], lines 31, 50, 63, and the like
    in [app.py]) on a standard output that encodes as UTF-8: a string with a
    lone surrogate cannot be written.  Any other value is printed through
    its [repr], which escapes surrogates.  Of the error's message, which
    also names the codec, the character and its position, the reason alone
    is kept. *)
Definition print_link (link : pyval) : res unit :=
  match link with
  | VStr s =>
      if PyStr.encodable s then Ok tt
      else Raise (Exn (OtherException "UnicodeEncodeError") "surrogates not allowed")
  | _ => Ok tt
  end.

(* ================================================================= *)
(** ** 2. Helper functions (evidence gathering) *)

(** Lines 33-37 of [get_github_repo_contents]: owner and repository name
    out of the URL. *)
Definition parse_owner_repo (repo_url : string) : res (string * string) :=
  (let parts := PyStr.split "/" (PyStr.strip_chars "/" repo_url) in
   let? owner := Py.index_from_end parts 2 in
   let? repo := Py.index_from_end parts 1 in
   let repo := if PyStr.endswith ".git" repo then PyStr.drop_last 4 repo else repo in
   Ok (owner, repo))%res.

Definition get_github_repo_contents (w : env) (repo_url : pyval) : M pyval :=
  tell (Enter Fn_get_github_repo_contents) ;;
  lift (print_link repo_url) ;;
  try_except
    (url <- lift (Py.as_str repo_url) ;;
     owner_repo <- lift (parse_owner_repo url) ;;
     let api_url := "https://api.github.com/repos/" ++ fst owner_repo ++ "/"
                    ++ snd owner_repo ++ "/contents/" in
     response <- call_requests_get w (VStr api_url) ;;
     lift (raise_for_status response) ;;
     body <- lift (json response) ;;
     lift (Py.names_of body))
    is_Exception
    (fun _ => ret VNone).

Definition get_google_drive_folder_contents (w : env) (folder_url : pyval) : M pyval :=
  tell (Enter Fn_get_google_drive_folder_contents) ;;
  lift (print_link folder_url) ;;
  try_except
    (url <- lift (Py.as_str folder_url) ;;
     last_segment <- lift (Py.index_from_end (PyStr.split "/" url) 1) ;;
     folder_id <- lift (Py.index0 (PyStr.split "?" last_segment)) ;;
     let query := "'" ++ folder_id ++ "' in parents" in
     results <- call_drive_files_list w query ;;
     files <- lift (Py.get results "files" (VList [])) ;;
     lift (Py.names_of files))
    is_Exception
    (fun _ => ret VNone).

Definition scrape_website_text (w : env) (url : pyval) : M pyval :=
  tell (Enter Fn_scrape_website_text) ;;
  lift (print_link url) ;;
  try_except
    (response <- call_requests_get w url ;;
     lift (raise_for_status response) ;;
     text <- lift (visible_text w (content response)) ;;
     ret (VStr text))
    is_RequestException
    (fun _ => ret VNone).

(* ================================================================= *)
(** ** 3. Core AI logic *)

Import PyStr.

(** Line 83, the instruction that opens the classification prompt. *)
Definition classify_instruction : string :=
  "Analyze the following contract details and classify the freelancer's role into ONE of these categories: "
  ++ dq ++ "UI/UX Designer" ++ dq ++ ", " ++ dq ++ "Graphic Designer" ++ dq ++ ", "
  ++ dq ++ "Web Developer" ++ dq ++ ", " ++ dq ++ "Content Writer" ++ dq ++ ", "
  ++ dq ++ "Social Media Manager" ++ dq ++ ". Respond with only the category name.".

(** Line 85, the f-string sent to the model. *)
Definition classify_prompt (w : env) (project_description : pyval) (tasks : string) : string :=
  classify_instruction ++ nl ++ nl ++ "**Contract Details:**" ++ nl
  ++ "- Project Description: " ++ py_str w project_description ++ nl
  ++ "- Tasks: " ++ tasks.

(** Lines 81-85, the text sent to the model; it is computed inside the
    [try] of the function. *)
Definition classify_request (w : env) (contract_details : pyval) : res string :=
  (let? project_description := Py.get contract_details "projectDescription" (VStr EmptyString) in
   let? task := Py.get contract_details "task" (VList []) in
   let? tasks := Py.join (nl ++ "- ") task in
   Ok (classify_prompt w project_description tasks))%res.

(** Line 86, the response text turned into the role. *)
Definition clean_role (text : string) : string :=
  replace dq EmptyString (strip text).

Definition _classify_freelancer_role (w : env) (contract_details : pyval) : M string :=
  tell (Enter Fn_classify_freelancer_role) ;;
  try_except
    (request <- lift (classify_request w contract_details) ;;
     text <- call_generate_content w request ;;
     let role := clean_role text in
     ret role)
    is_Exception
    (fun _ => ret "Unknown").

(** Lines 97-113, [prompt_template] with its four fields filled in. *)
Definition verify_template (project_description tasks evidence_type evidence : string) : string :=
  "
    You are an AI dispute resolution agent. Your task is to analyze the provided proof against the contract requirements. Your goal is to determine if the proof is a PLAUSIBLE match for the work described.

    **Contract Requirements:**
    - Project Description: " ++ project_description ++ "
    - Tasks: " ++ tasks ++ "

    **Evidence Provided (" ++ evidence_type ++ "):**
    " ++ evidence ++ "

    **Your Analysis:**
    Based on the evidence, is it plausible that the work described has been completed?

    **Respond in JSON format with two keys:**
    1. " ++ dq ++ "decision" ++ dq ++ ": Must be " ++ dq ++ "approved" ++ dq ++ " or "
  ++ dq ++ "needs_review" ++ dq ++ ".
    2. " ++ dq ++ "justification" ++ dq ++ ": A brief, one-sentence explanation.
    ".

(** Lines 115-121, [prompt_template.format(...)]; it stands outside the
    [try] of the function. *)
Definition verify_prompt (w : env) (contract_details evidence : pyval)
    (evidence_type : string) : res string :=
  (let? project_description := Py.get contract_details "projectDescription" (VStr EmptyString) in
   let? task := Py.get contract_details "task" (VList []) in
   let? tasks := Py.join (nl ++ "- ") task in
   Ok (verify_template (py_str w project_description) tasks evidence_type
         (py_str w evidence)))%res.

(** Line 126, the response text made ready for [json.loads]. *)
Definition strip_code_fence (text : string) : string :=
  replace "```" EmptyString (replace "```json" EmptyString (strip text)).

(** Line 129, the verdict of the [except] branch. *)
Definition error_verdict (e : exn) : pyval :=
  VDict [("decision", VStr "error");
         ("justification", VStr ("Gemini API error: " ++ exn_str e))].

Definition _verify_proof_with_role (w : env) (contract_details evidence : pyval)
    (evidence_type freelancer_role : string) : M pyval :=
  tell (Enter Fn_verify_proof_with_role) ;;
  final_prompt <- lift (verify_prompt w contract_details evidence evidence_type) ;;
  try_except
    (text <- call_generate_content w final_prompt ;;
     let json_response_str := strip_code_fence text in
     lift (json_loads w json_response_str))
    is_Exception
    (fun e => ret (error_verdict e)).

(** The dict [{"status": ..., "reason": ...}] the pipeline returns. *)
Definition outcome (status : string) (reason : pyval) : pyval :=
  VDict [("status", VStr status); ("reason", reason)].

(** Lines 143-155 of [get_ai_dispute_verdict]: the helper chosen from the
    URL, called; the evidence and its label. *)
Definition gather_evidence (w : env) (proof_url : pyval) : M (pyval * string) :=
  is_github <- lift (Py.str_in "github.com" proof_url) ;;
  if is_github : bool then
    evidence <- get_github_repo_contents w proof_url ;;
    ret (evidence, "List of Files from GitHub")
  else
    is_drive <- lift (Py.str_in "drive.google.com" proof_url) ;;
    if is_drive : bool then
      evidence <- get_google_drive_folder_contents w proof_url ;;
      ret (evidence, "List of Files from Google Drive")
    else
      evidence <- scrape_website_text w proof_url ;;
      ret (evidence, "Scraped Website Content").

(** Lines 162-168 of [get_ai_dispute_verdict]: the verdict turned into the
    outcome. *)
Definition verdict_outcome (ai_detailed_verdict : pyval) : res pyval :=
  (let? decision := Py.get ai_detailed_verdict "decision" VNone in
   let? justification := Py.get ai_detailed_verdict "justification" VNone in
   if Py.eq_str decision "approved"
   then Ok (outcome "accepted" justification)
   else Ok (outcome "not accepted" justification))%res.

Definition get_ai_dispute_verdict (w : env) (contract_details : pyval) : M pyval :=
  tell (Enter Fn_get_ai_dispute_verdict) ;;
  freelancer_role <- _classify_freelancer_role w contract_details ;;
  if String.eqb freelancer_role "Unknown" then
    ret (outcome "not accepted" (VStr "Could not determine freelancer role from contract."))
  else
    links <- lift (Py.get contract_details "links" (VList [])) ;;
    if negb (Py.truthy links) then
      ret (outcome "not accepted" (VStr "No proof links were provided."))
    else
      proof_url <- lift (Py.getitem0 links) ;;
      gathered <- gather_evidence w proof_url ;;
      let evidence := fst gathered in
      let evidence_type := snd gathered in
      if negb (Py.truthy evidence) then
        ret (outcome "not accepted"
               (VStr ("Could not access or process the proof from the provided link: "
                      ++ py_str w proof_url)))
      else
        ai_detailed_verdict <-
          _verify_proof_with_role w contract_details evidence evidence_type freelancer_role ;;
        lift (verdict_outcome ai_detailed_verdict).

(* ================================================================= *)
(** ** 4. The endpoint *)

(** [POST /verify-proof].  [request_json] is what reading [request.json]
    gives; the answer is the JSON body and the HTTP status. *)
Definition handle_dispute (w : env) (request_json : res pyval) : M (pyval * Z) :=
  tell (Enter Fn_handle_dispute) ;;
  try_except
    (body <- lift request_json ;;
     contract_details <- lift (Py.get body "contractData" VNone) ;;
     if negb (Py.truthy contract_details) then
       ret (VDict [("ok", VBool false);
                   ("error", VStr "Missing 'contractData' in request body.")], 400%Z)
     else
       ai_verdict <- get_ai_dispute_verdict w contract_details ;;
       status <- lift (Py.get ai_verdict "status" VNone) ;;
       reason <- lift (Py.get ai_verdict "reason" VNone) ;;
       ret (VDict [("ok", VBool true); ("status", status); ("reason", reason)], 200%Z))
    is_Exception
    (fun _ => ret (VDict [("ok", VBool false);
                          ("error", VStr "An internal server error occurred.")], 500%Z)).

(* ================================================================= *)
(** ** Vocabulary of the specification *)

(** The closed set of role labels of the data model. *)
Definition RoleLabel : list string :=
  ["UI/UX Designer"; "Graphic Designer"; "Web Developer"; "Content Writer";
   "Social Media Manager"; "Unknown"].

(** [sub] occurs in [s]. *)
Definition is_substring (sub s : string) : Prop :=
  exists pre post, s = pre ++ sub ++ post.

(** [s] ends with [suffix]. *)
Definition is_suffix (suffix s : string) : Prop :=
  exists stem, s = stem ++ suffix.

Definition is_provider (f : func) : bool :=
  match f with
  | Fn_get_github_repo_contents
  | Fn_get_google_drive_folder_contents
  | Fn_scrape_website_text => true
  | _ => false
  end.

(** The evidence providers called in a run, in order. *)
Fixpoint providers_called (t : list event) : list func :=
  match t with
  | [] => []
  | Enter f :: r => if is_provider f then f :: providers_called r else providers_called r
  | _ :: r => providers_called r
  end.

(** An event of evidence gathering: a provider entered, or a request to a
    proof source sent. *)
Definition evidence_event (e : event) : bool :=
  match e with
  | Enter f => is_provider f
  | RequestsGet _ | DriveList _ => true
  | GenerateContent _ => false
  end.

(** The run on [contract_details] gets past the role and the links checks and
    reads [proof_url] as the first link. *)
Definition reaches_provider (w : env) (contract_details : pyval)
    (role : string) (proof_url : pyval) : Prop :=
  exists links,
    result (_classify_freelancer_role w contract_details) = Ok role /\
    role <> "Unknown" /\
    Py.get contract_details "links" (VList []) = Ok links /\
    Py.getitem0 links = Ok proof_url.

(** The run gets as far as the judge, with this evidence and label. *)
Definition reaches_judge (w : env) (contract_details : pyval)
    (role : string) (evidence : pyval) (evidence_type : string) : Prop :=
  exists proof_url,
    reaches_provider w contract_details role proof_url /\
    result (gather_evidence w proof_url) = Ok (evidence, evidence_type) /\
    Py.truthy evidence = true.

(** The judge's call fails with [e]: the inference service raises it, or
    it answers and decoding the answer, code fences stripped, raises it. *)
Definition judge_fails (w : env) (prompt : string) (e : exn) : Prop :=
  generate_content w prompt = Raise e \/
  exists text, generate_content w prompt = Ok text /\
               json_loads w (strip_code_fence text) = Raise e.

(* ================================================================= *)
(** ** Concrete requests and services, for the scenarios of the spec *)

Module Scenario.

Definition decode_error : exn :=
  Exn (OtherException "JSONDecodeError") "Expecting value: line 1 column 1 (char 0)".

Definition service_down : exn :=
  Exn (OtherException "ServiceUnavailable") "503 The model is overloaded.".

Definition connection_error : exn :=
  Exn RequestException "ConnectionError".

Definition parser_rejected : exn :=
  Exn (OtherException "ParserRejectedMarkup") "unknown status keyword 'x' in marked section".

Definition approved_json : string :=
  "{" ++ dq ++ "decision" ++ dq ++ ": " ++ dq ++ "approved" ++ dq ++ ", "
  ++ dq ++ "justification" ++ dq ++ ": " ++ dq ++ "Matches described landing page work." ++ dq ++ "}".

Definition approved_verdict : pyval :=
  VDict [("decision", VStr "approved");
         ("justification", VStr "Matches described landing page work.")].

(** A decoder that knows two documents, with JSON whitespace around them:
    the approving verdict and the empty array. *)
Definition decode (s : string) : res pyval :=
  let blank := " " ++ nl ++ String "009"%char (String "013"%char EmptyString) in
  let document := strip_chars blank s in
  if String.eqb document approved_json then Ok approved_verdict
  else if String.eqb document "[]" then Ok (VList [])
  else Raise decode_error.

(** [repr] of the values the scenarios print. *)
Fixpoint simple_repr (v : pyval) : string :=
  match v with
  | VNone => "None"
  | VBool true => "True"
  | VBool false => "False"
  | VStr s => "'" ++ s ++ "'"
  | VList l => "[" ++ String.concat ", " (map simple_repr l) ++ "]"
  | _ => "..."
  end.

(** The model: one answer to the classification prompt, one to the other. *)
Definition model (role_answer verdict_answer : res string) (prompt : string) : res string :=
  if prefix "Analyze the following contract details" prompt
  then role_answer else verdict_answer.

Definition root_listing : pyval :=
  VList [VDict [("name", VStr "index.html"); ("type", VStr "file")];
         VDict [("name", VStr "style.css"); ("type", VStr "file")]].

Definition page (status : Z) : response :=
  {| status_code := status;
     content := "<html><body><h1>Landing</h1></body></html>";
     json := Ok root_listing |}.

(** A body with a marked section of unknown keyword, which [html.parser]
    refuses. *)
Definition marked_section_page : response :=
  {| status_code := 200;
     content := "<html><![x]></html>";
     json := Raise (Exn RequestException "JSONDecodeError") |}.

(** The visible text of [page]; the parser's refusal of a marked section. *)
Definition soup (content : string) : res string :=
  if contains "<![x" content then Raise parser_rejected else Ok "Landing".

Definition services (ai : string -> res string) (http : pyval -> res response)
    (soup : string -> res string) : env :=
  {| generate_content := ai;
     requests_get := http;
     drive_files_list := fun _ => Ok (VDict [("files", VList [VDict [("name", VStr "mockup.fig")]])]);
     visible_text := soup;
     json_loads := decode;
     repr := simple_repr |}.

(** Everything answers as in Scenario C. *)
Definition all_up : env :=
  services (model (Ok ("Web Developer" ++ nl)) (Ok ("```json" ++ nl ++ approved_json ++ nl ++ "```")))
           (fun _ => Ok (page 200)) (fun _ => Ok "Landing").

(** The inference service is down. *)
Definition ai_down : env :=
  services (fun _ => Raise service_down) (fun _ => Ok (page 200)) (fun _ => Ok "Landing").

(** The model names a role outside the label set. *)
Definition ai_off_list : env :=
  services (model (Ok (" " ++ dq ++ "Plumber" ++ dq ++ nl)) (Ok approved_json))
           (fun _ => Ok (page 200)) (fun _ => Ok "Landing").

(** The model classifies, then the service fails on the judge's prompt. *)
Definition judge_down : env :=
  services (model (Ok "Web Developer") (Raise service_down))
           (fun _ => Ok (page 200)) (fun _ => Ok "Landing").

(** The model judges in prose, inside a code fence. *)
Definition ai_fenced_prose : env :=
  services (model (Ok "Web Developer")
              (Ok ("```json" ++ nl ++ "approved, the files look right" ++ nl ++ "```" ++ nl)))
           (fun _ => Ok (page 200)) (fun _ => Ok "Landing").

(** The proof host answers 404. *)
Definition host_404 : env :=
  services (model (Ok "Web Developer") (Ok approved_json))
           (fun _ => Ok (page 404)) (fun _ => Ok "Landing").

(** The page is served, and the HTML parser rejects its markup. *)
Definition page_unparsable : env :=
  services (model (Ok "Web Developer") (Ok approved_json))
           (fun _ => Ok marked_section_page) soup.

(** The model answers the judge's prompt with an empty JSON array. *)
Definition ai_array : env :=
  services (model (Ok "Web Developer") (Ok "[]"))
           (fun _ => Ok (page 200)) (fun _ => Ok "Landing").

(** A link with the lone surrogate U+D800, as [json.loads] gives it for
    the escape [\ud800]. *)
Definition surrogate_link : string :=
  "https://github.com/acme/"
  ++ String "237"%char (String "160"%char (String "128"%char EmptyString)).

Definition contract (links : list pyval) : pyval :=
  VDict [("projectDescription", VStr "Build a landing page");
         ("task", VList [VStr "design mockup"]);
         ("links", VList links)].

Definition body (contract_data : pyval) : pyval :=
  VDict [("contractData", contract_data)].

End Scenario.

(* ================================================================= *)
(** ** Measures of a run and shapes of answers *)

(** The character [c] occurs in [s]. *)
Definition has_char (c : ascii) (s : string) : Prop :=
  In c (list_ascii_of_string s).

Definition is_prompt (e : event) : bool :=
  match e with
  | GenerateContent _ => true
  | _ => false
  end.

Definition is_source_request (e : event) : bool :=
  match e with
  | RequestsGet _ | DriveList _ => true
  | _ => false
  end.

(** How many prompts a run sends to the inference service. *)
Definition prompts_sent (t : list event) : nat :=
  List.length (filter is_prompt t).

(** How many requests a run sends to proof sources. *)
Definition source_requests (t : list event) : nat :=
  List.length (filter is_source_request t).

(** The outbound calls of a run, in the order they were made. *)
Definition outbound (t : list event) : list event :=
  filter (fun e => is_prompt e || is_source_request e) t.

(** The answers of the endpoint that do not come from the pipeline. *)
Definition missing_contract_answer : pyval * Z :=
  (VDict [("ok", VBool false);
          ("error", VStr "Missing 'contractData' in request body.")], 400%Z).

Definition internal_error_answer : pyval * Z :=
  (VDict [("ok", VBool false);
          ("error", VStr "An internal server error occurred.")], 500%Z).

(** The answer that carries the pipeline's status and reason. *)
Definition verdict_answer (status : string) (reason : pyval) : pyval * Z :=
  (VDict [("ok", VBool true); ("status", VStr status); ("reason", reason)], 200%Z).

(** An item of a listing that has a name: an object with the key "name". *)
Definition named (item name : pyval) : Prop :=
  exists d, item = VDict d /\ Py.lookup "name" d = Some name.

(** An item of a listing whose name cannot be read. *)
Definition nameless (item : pyval) : Prop :=
  exists e, Py.getitem item "name" = Raise e.

(* ================================================================= *)
(** ** [app.py]: publishing a file to the repository host *)

Module App.

(** What [requests.get] and [requests.put] hand back here:
    [status_code], the outcome of [json()] and [text]. *)
Record reply := {
  reply_status : Z;
  reply_json : res pyval;
  reply_text : string
}.

(** The configuration read at import (lines 29-31) and the services
    [upload_to_github] and [img_to_base64] call. *)
Record services := {
  (** [os.getenv("GITHUB_REPO")], [None] when unset *)
  GITHUB_REPO : option string;
  (** [os.getenv("GITHUB_BRANCH", "main")] *)
  GITHUB_BRANCH : string;
  (** [open(path, "rb").read()] *)
  read_file : string -> res string;
  (** [base64.b64encode(data).decode("utf-8")] *)
  b64encode : string -> string;
  (** [int(time.time())] *)
  now : Z;
  (** [requests.get(url, headers=headers, params=params)] *)
  http_get : string -> list (string * string) -> res reply;
  (** [requests.put(url, headers=headers, json=payload)] *)
  http_put : string -> pyval -> res reply;
  (** [repr] of a value that is not a [str] *)
  repr_value : pyval -> string
}.

Inductive request :=
| HttpGet (url : string) (params : list (string * string))
| HttpPut (url : string) (payload : pyval).

(** A computation of [app.py]: its result and the requests it sent. *)
Definition W (A : Type) : Type := (res A * list request)%type.

Definition wret {A} (a : A) : W A := (Ok a, []).
Definition wlift {A} (r : res A) : W A := (r, []).
Definition wbind {A B} (m : W A) (k : A -> W B) : W B :=
  match m with
  | (Ok a, t) => let (r, t') := k a in (r, (t ++ t')%list)
  | (Raise e, t) => (Raise e, t)
  end.

Definition returned {A} (m : W A) : res A := fst m.
Definition sent {A} (m : W A) : list request := snd m.

Declare Scope app_scope.
Delimit Scope app_scope with app.
Notation "x <- c ;; k" := (wbind c (fun x => k))
  (at level 61, c at next level, right associativity) : app_scope.

(** [str(z)] for an integer, as an f-string prints it *)
Definition decimal (z : Z) : string :=
  NilZero.string_of_int (Z.to_int z).

(** An f-string field holding the result of [os.getenv]. *)
Definition fmt_env (v : option string) : string :=
  match v with
  | Some s => s
  | None => "None"
  end.

(** An f-string field holding a decoded value. *)
Definition fmt (s : services) (v : pyval) : string :=
  match v with
  | VStr x => x
  | _ => repr_value s v
  end.

(** Lines 40-43. *)
Definition img_to_base64 (s : services) (path : string) : res string :=
  (let? data := read_file s path in
   Ok ("data:image/png;base64," ++ b64encode s data))%res.

(** Line 52, the address of the file in the contents API. *)
Definition contents_url (s : services) (file_name : string) : string :=
  "https://api.github.com/repos/" ++ fmt_env (GITHUB_REPO s) ++ "/contents/" ++ file_name
  ++ "?t=" ++ decimal (now s).

(** Line 88, the address the file is served from. *)
Definition raw_url (s : services) (file_name : string) : string :=
  "https://raw.githubusercontent.com/" ++ fmt_env (GITHUB_REPO s) ++ "/" ++ GITHUB_BRANCH s
  ++ "/" ++ file_name.

(** Lines 70-76, the body of the PUT. *)
Definition payload_of (s : services) (file_name content : string) (sha : pyval) : pyval :=
  VDict ([("message", VStr ("Update contract " ++ file_name));
          ("content", VStr content);
          ("branch", VStr (GITHUB_BRANCH s))]
         ++ (if Py.truthy sha then [("sha", sha)] else []))%list.

(** Lines 46-92.  Three of its [print] statements format a value that
    can hold a lone surrogate: the file name (line 48), the address (line 57)
    and the sha read from the host's answer (line 63). *)
Definition upload_to_github (s : services) (file_path file_name : string) : W string :=
  (printed <- wlift (print_link (VStr file_name)) ;;
   data <- wlift (read_file s file_path) ;;
   let content := b64encode s data in
   let url := contents_url s file_name in
   printed <- wlift (print_link (VStr url)) ;;
   let params := [("ref", GITHUB_BRANCH s)] in
   r <- (http_get s url params, [HttpGet url params]) ;;
   sha <- (if (reply_status r =? 200)%Z
           then wlift (let? body := reply_json r in
                       let? sha := Py.get body "sha" VNone in
                       let? printed := print_link sha in
                       Ok sha)%res
           else wret VNone) ;;
   let payload := payload_of s file_name content sha in
   response <- (http_put s url payload, [HttpPut url payload]) ;;
   if ((reply_status response =? 200) || (reply_status response =? 201))%Z then
     wret (raw_url s file_name)
   else
     error_message <- wlift (let? body := reply_json response in
                             Py.get body "message" (VStr (reply_text response)))%res ;;
     wlift (Raise (Exn (OtherException "Exception")
                     ("GitHub upload failed with status " ++ decimal (reply_status response)
                      ++ ": " ++ fmt s error_message))))%app.

End App.

(** Concrete services for [app.py]: the file is read, the host answers
    the GET with [found] and the PUT with [stored]. *)
Module AppScenario.

Definition reply_of (status : Z) (fields : list (string * pyval)) : App.reply :=
  {| App.reply_status := status;
     App.reply_json := Ok (VDict fields);
     App.reply_text := "{}" |}.

Definition host (found stored : App.reply) : App.services :=
  {| App.GITHUB_REPO := Some "acme/contracts";
     App.GITHUB_BRANCH := "main";
     App.read_file := fun _ => Ok "%PDF";
     App.b64encode := fun _ => "JVBERg==";
     App.now := 1718000000;
     App.http_get := fun _ _ => Ok found;
     App.http_put := fun _ _ => Ok stored;
     App.repr_value := Scenario.simple_repr |}.

(** A first upload: the file is not there yet, the PUT creates it. *)
Definition first_upload : App.services :=
  host (reply_of 404 [("message", VStr "Not Found")]) (reply_of 201 []).

(** An update: the file is there with a sha, the PUT replaces it. *)
Definition update : App.services :=
  host (reply_of 200 [("sha", VStr "3d21ec5")]) (reply_of 200 []).

(** The name is a directory of the repository: the GET answers 200 with
    an array. *)
Definition directory : App.services :=
  host {| App.reply_status := 200; App.reply_json := Ok (VList []); App.reply_text := "[]" |}
       (reply_of 201 []).

(** The host refuses the PUT. *)
Definition refused : App.services :=
  host (reply_of 404 [("message", VStr "Not Found")])
       (reply_of 422 [("message", VStr "Invalid request.")]).

End AppScenario.

(* ================================================================= *)
(** * Properties *)

(** ** Running a computation *)

Section Monad.
Context {A B : Type}.

Lemma result_ret (a : A) : result (ret a) = Ok a.
Proof. reflexivity. Qed.

Lemma calls_ret (a : A) : calls (ret a) = [].
Proof. reflexivity. Qed.

Lemma result_lift (r : res A) : result (lift r) = r.
Proof. reflexivity. Qed.

Lemma calls_lift (r : res A) : calls (lift r) = [].
Proof. reflexivity. Qed.

Lemma result_bind (m : M A) (k : A -> M B) :
  result (bind m k) =
  match result m with Ok a => result (k a) | Raise e => Raise e end.
Proof.
  destruct m as [[a | e] t]; unfold bind, result; cbn [fst]; [| reflexivity].
  destruct (k a); reflexivity.
Qed.

Lemma calls_bind (m : M A) (k : A -> M B) :
  calls (bind m k) =
  (calls m ++ match result m with Ok a => calls (k a) | Raise _ => [] end)%list.
Proof.
  destruct m as [[a | e] t]; unfold bind, result, calls; cbn [fst snd].
  - destruct (k a); reflexivity.
  - now rewrite app_nil_r.
Qed.

Lemma result_try_except (body : M A) (catches : exn -> bool) (handler : exn -> M A) :
  result (try_except body catches handler) =
  match result body with
  | Ok a => Ok a
  | Raise e => if catches e then result (handler e) else Raise e
  end.
Proof.
  destruct body as [[a | e] t]; unfold try_except, result; cbn [fst]; [reflexivity |].
  destruct (catches e); [| reflexivity]. destruct (handler e); reflexivity.
Qed.

Lemma calls_try_except (body : M A) (catches : exn -> bool) (handler : exn -> M A) :
  calls (try_except body catches handler) =
  (calls body ++ match result body with
                 | Ok _ => []
                 | Raise e => if catches e then calls (handler e) else []
                 end)%list.
Proof.
  destruct body as [[a | e] t]; unfold try_except, result, calls; cbn [fst snd].
  - now rewrite app_nil_r.
  - destruct (catches e); [| now rewrite app_nil_r]. destruct (handler e); reflexivity.
Qed.

End Monad.

Lemma result_tell (e : event) : result (tell e) = Ok tt.
Proof. reflexivity. Qed.

Lemma calls_tell (e : event) : calls (tell e) = [e].
Proof. reflexivity. Qed.

Create Rewrite HintDb run.
#[local] Hint Rewrite @result_ret @calls_ret @result_lift @calls_lift @result_bind
  @calls_bind @result_try_except @calls_try_except result_tell calls_tell
  app_nil_r : run.

(** Rewrite with the equations above and reduce the matches they expose. *)
Ltac run := repeat (progress (autorewrite with run; cbv beta iota zeta)).

(** ** The role classifier *)

(** The classifier never raises: its result is the cleaned response text,
    or "Unknown" when the prompt could not be built or the call failed. *)
Lemma classify_result (w : env) (cd : pyval) :
  result (_classify_freelancer_role w cd) =
  Ok match classify_request w cd with
     | Raise _ => "Unknown"
     | Ok request =>
         match generate_content w request with
         | Raise _ => "Unknown"
         | Ok text => clean_role text
         end
     end.
Proof.
  unfold _classify_freelancer_role, call_generate_content. run.
  destruct (classify_request w cd) as [request | e]; run; [| reflexivity].
  destruct (generate_content w request); run; reflexivity.
Qed.

Lemma classify_calls (w : env) (cd : pyval) :
  calls (_classify_freelancer_role w cd) =
  Enter Fn_classify_freelancer_role ::
  match classify_request w cd with
  | Raise _ => []
  | Ok request => [GenerateContent request]
  end.
Proof.
  unfold _classify_freelancer_role, call_generate_content. run.
  destruct (classify_request w cd) as [request | e]; run; [| reflexivity].
  destruct (generate_content w request); run; reflexivity.
Qed.

(** A role other than "Unknown" means the request text was built, so the
    contract is a dict whose task list joins. *)
Lemma classify_known_request (w : env) (cd : pyval) (role : string) :
  result (_classify_freelancer_role w cd) = Ok role ->
  role <> "Unknown" ->
  exists request, classify_request w cd = Ok request.
Proof.
  rewrite classify_result. intros H Hrole.
  destruct (classify_request w cd) as [request | e]; [now exists request |].
  injection H as <-. now elim Hrole.
Qed.

(** C3, as the claim states it, fails: when the model answers with a role
    outside the label set, the classifier returns that answer, cleaned, and
    not "Unknown". *)
Lemma classify_role_outside_label_set :
  result (_classify_freelancer_role Scenario.ai_off_list (Scenario.contract [])) = Ok "Plumber"
  /\ ~ In "Plumber" RoleLabel.
Proof.
  split; [vm_compute; reflexivity |].
  unfold RoleLabel. cbn [In]. intros H.
  repeat (destruct H as [H | H]; [discriminate H |]). exact H.
Qed.

(** C3, amended: the classifier always returns a string.  It is "Unknown"
    when building the request or the AI call raises; otherwise it is the
    response text with surrounding whitespace stripped and every double quote
    removed, whether or not that text is one of the five labels. *)
Theorem classify_role_is_cleaned_text_or_Unknown (w : env) (cd : pyval) :
  (exists role, result (_classify_freelancer_role w cd) = Ok role) /\
  (forall e, classify_request w cd = Raise e ->
     result (_classify_freelancer_role w cd) = Ok "Unknown") /\
  (forall request e, classify_request w cd = Ok request ->
     generate_content w request = Raise e ->
     result (_classify_freelancer_role w cd) = Ok "Unknown") /\
  (forall request text, classify_request w cd = Ok request ->
     generate_content w request = Ok text ->
     result (_classify_freelancer_role w cd)
     = Ok (replace dq EmptyString (strip text))).
Proof.
  rewrite classify_result. repeat split.
  - eexists; reflexivity.
  - intros e ->. reflexivity.
  - intros request e -> ->. reflexivity.
  - intros request text -> ->. reflexivity.
Qed.

Lemma classify_role_is_cleaned_text_or_Unknown_witness :
  result (_classify_freelancer_role Scenario.all_up (Scenario.contract [])) = Ok "Web Developer" /\
  result (_classify_freelancer_role Scenario.ai_down (Scenario.contract [])) = Ok "Unknown".
Proof.
  pose (request := classify_prompt Scenario.all_up (VStr "Build a landing page") "design mockup").
  split.
  - destruct (classify_role_is_cleaned_text_or_Unknown Scenario.all_up (Scenario.contract []))
      as (_ & _ & _ & H).
    rewrite (H request ("Web Developer" ++ nl) eq_refl); vm_compute; reflexivity.
  - destruct (classify_role_is_cleaned_text_or_Unknown Scenario.ai_down (Scenario.contract []))
      as (_ & _ & H & _).
    apply (H request Scenario.service_down eq_refl). reflexivity.
Defined.

(** ** The orchestrator: early exits *)

(** The run when the classifier says "Unknown". *)
Lemma verdict_when_role_unknown (w : env) (cd : pyval) :
  result (_classify_freelancer_role w cd) = Ok "Unknown" ->
  get_ai_dispute_verdict w cd =
  (Ok (outcome "not accepted" (VStr "Could not determine freelancer role from contract.")),
   Enter Fn_get_ai_dispute_verdict :: calls (_classify_freelancer_role w cd)).
Proof.
  intros H. rewrite (surjective_pairing (get_ai_dispute_verdict w cd)).
  change (fst (get_ai_dispute_verdict w cd)) with (result (get_ai_dispute_verdict w cd)).
  change (snd (get_ai_dispute_verdict w cd)) with (calls (get_ai_dispute_verdict w cd)).
  unfold get_ai_dispute_verdict. run. rewrite H. run. reflexivity.
Qed.

(** C6: when role classification yields "Unknown", the outcome is "not
    accepted" with the reason "Could not determine freelancer role from
    contract.", and the run contains no evidence-gathering event: no
    provider is entered and no request to a proof source is sent. *)
Theorem unknown_role_ends_run_before_evidence (w : env) (cd : pyval) :
  result (_classify_freelancer_role w cd) = Ok "Unknown" ->
  result (get_ai_dispute_verdict w cd)
  = Ok (VDict [("status", VStr "not accepted");
               ("reason", VStr "Could not determine freelancer role from contract.")])
  /\ providers_called (calls (get_ai_dispute_verdict w cd)) = []
  /\ existsb evidence_event (calls (get_ai_dispute_verdict w cd)) = false.
Proof.
  intros H. rewrite (verdict_when_role_unknown w cd H).
  unfold result, calls; cbn [fst snd]. split; [reflexivity |].
  pose proof (classify_calls w cd) as Hc. unfold calls in Hc. rewrite Hc.
  destruct (classify_request w cd); split; reflexivity.
Qed.

Lemma unknown_role_ends_run_before_evidence_witness :
  result (get_ai_dispute_verdict Scenario.ai_down
            (Scenario.contract [VStr "https://github.com/acme/widgets"]))
  = Ok (VDict [("status", VStr "not accepted");
               ("reason", VStr "Could not determine freelancer role from contract.")]).
Proof.
  apply (unknown_role_ends_run_before_evidence Scenario.ai_down
           (Scenario.contract [VStr "https://github.com/acme/widgets"])).
  vm_compute. reflexivity.
Defined.

(** C4, as the claim states it, fails: the role is classified before the
    links are looked at, so with the request of Scenario A and the inference
    service down, the reason is the one about the role. *)
Lemma empty_links_when_classification_fails :
  Py.getitem (Scenario.contract []) "links" = Ok (VList []) /\
  result (get_ai_dispute_verdict Scenario.ai_down (Scenario.contract []))
  = Ok (outcome "not accepted" (VStr "Could not determine freelancer role from contract.")) /\
  result (get_ai_dispute_verdict Scenario.ai_down (Scenario.contract []))
  <> Ok (outcome "not accepted" (VStr "No proof links were provided.")) /\
  result (handle_dispute Scenario.ai_down (Ok (Scenario.body (Scenario.contract []))))
  = Ok (VDict [("ok", VBool true); ("status", VStr "not accepted");
               ("reason", VStr "Could not determine freelancer role from contract.")], 200%Z).
Proof.
  repeat split; try (vm_compute; reflexivity).
  vm_compute. discriminate.
Qed.

Lemma lookup_some_truthy (k : string) (d : list (string * pyval)) (v : pyval) :
  Py.lookup k d = Some v -> Py.truthy (VDict d) = true.
Proof. destruct d; [discriminate | reflexivity]. Qed.

(** C4, amended: for every request whose links list is present and empty
    and whose role classification yields a role other than "Unknown", the
    outcome is "not accepted" with the reason "No proof links were
    provided.", and the endpoint answers 200 with ok true, that status and
    that reason. *)
Theorem empty_links_after_known_role (w : env) (d : list (string * pyval)) (role : string) :
  result (_classify_freelancer_role w (VDict d)) = Ok role ->
  role <> "Unknown" ->
  Py.lookup "links" d = Some (VList []) ->
  result (get_ai_dispute_verdict w (VDict d))
  = Ok (outcome "not accepted" (VStr "No proof links were provided."))
  /\ forall body, Py.get body "contractData" VNone = Ok (VDict d) ->
       result (handle_dispute w (Ok body))
       = Ok (VDict [("ok", VBool true); ("status", VStr "not accepted");
                    ("reason", VStr "No proof links were provided.")], 200%Z).
Proof.
  intros Hrole Hknown Hlinks.
  assert (Hrun : result (get_ai_dispute_verdict w (VDict d))
                 = Ok (outcome "not accepted" (VStr "No proof links were provided."))).
  { unfold get_ai_dispute_verdict. run. rewrite Hrole. run.
    apply String.eqb_neq in Hknown. rewrite Hknown. run.
    unfold Py.get. rewrite Hlinks. run. reflexivity. }
  split; [exact Hrun |].
  intros body Hbody. unfold handle_dispute. run. rewrite Hbody. run.
  rewrite (lookup_some_truthy _ _ _ Hlinks). cbv beta iota delta [negb]. run.
  rewrite Hrun. run. reflexivity.
Qed.

Lemma empty_links_after_known_role_witness :
  result (get_ai_dispute_verdict Scenario.all_up (Scenario.contract []))
  = Ok (outcome "not accepted" (VStr "No proof links were provided."))
  /\ result (handle_dispute Scenario.all_up (Ok (Scenario.body (Scenario.contract []))))
     = Ok (VDict [("ok", VBool true); ("status", VStr "not accepted");
                  ("reason", VStr "No proof links were provided.")], 200%Z).
Proof.
  assert (Hrole : result (_classify_freelancer_role Scenario.all_up (Scenario.contract []))
                  = Ok "Web Developer") by (vm_compute; reflexivity).
  assert (Hknown : "Web Developer" <> "Unknown") by discriminate.
  destruct (empty_links_after_known_role Scenario.all_up _ "Web Developer" Hrole Hknown eq_refl)
    as [Hrun Hendpoint].
  split; [exact Hrun | apply Hendpoint; reflexivity].
Defined.

(** ** The endpoint *)

(** C10: a request body whose contractData is an empty object gets the
    answer of a body without the field: ok false with the error "Missing
    'contractData' in request body." and status 400; the run consists of
    entering the endpoint only, so the pipeline is not invoked. *)
Theorem empty_contract_data_rejected (w : env) (body body' : list (string * pyval)) :
  Py.lookup "contractData" body = Some (VDict []) ->
  Py.lookup "contractData" body' = None ->
  result (handle_dispute w (Ok (VDict body)))
  = Ok (VDict [("ok", VBool false);
               ("error", VStr "Missing 'contractData' in request body.")], 400%Z)
  /\ calls (handle_dispute w (Ok (VDict body))) = [Enter Fn_handle_dispute]
  /\ ~ In (Enter Fn_get_ai_dispute_verdict) (calls (handle_dispute w (Ok (VDict body))))
  /\ handle_dispute w (Ok (VDict body)) = handle_dispute w (Ok (VDict body')).
Proof.
  intros Hempty Hmissing.
  assert (H : forall b, Py.truthy (match Py.lookup "contractData" b with
                                   | Some x => x | None => VNone end) = false ->
            handle_dispute w (Ok (VDict b))
            = (Ok (VDict [("ok", VBool false);
                          ("error", VStr "Missing 'contractData' in request body.")], 400%Z),
               [Enter Fn_handle_dispute])).
  { intros b Hb. rewrite (surjective_pairing (handle_dispute w (Ok (VDict b)))).
    change (fst (handle_dispute w (Ok (VDict b)))) with (result (handle_dispute w (Ok (VDict b)))).
    change (snd (handle_dispute w (Ok (VDict b)))) with (calls (handle_dispute w (Ok (VDict b)))).
    unfold handle_dispute, Py.get. run. rewrite Hb. cbv beta iota delta [negb]. run.
    reflexivity. }
  rewrite (H body) by (rewrite Hempty; reflexivity).
  rewrite (H body') by (rewrite Hmissing; reflexivity).
  unfold result, calls; cbn [fst snd]. repeat split.
  intros [Hin | []]. discriminate Hin.
Qed.

Lemma empty_contract_data_rejected_witness :
  result (handle_dispute Scenario.all_up (Ok (Scenario.body (VDict []))))
  = Ok (VDict [("ok", VBool false);
               ("error", VStr "Missing 'contractData' in request body.")], 400%Z).
Proof.
  apply (empty_contract_data_rejected Scenario.all_up
           [("contractData", VDict [])] [("other", VInt 1)]); reflexivity.
Defined.

(** ** The evidence providers *)

(** Destruct the results a run branches on, one after the other. *)
Ltac branch :=
  repeat (run;
          match goal with
          | |- context [match ?r with Ok _ => _ | Raise _ => _ end] => destruct r
          end);
  run.

(** Once the link is printed, the repository provider hands every
    exception back as [None]; an exception of the print leaves it. *)
Lemma github_result (w : env) (u : pyval) :
  match print_link u with
  | Ok _ => exists v, result (get_github_repo_contents w u) = Ok v
  | Raise e => result (get_github_repo_contents w u) = Raise e
  end.
Proof.
  unfold get_github_repo_contents, call_requests_get, is_Exception. run.
  destruct (print_link u); run; [| reflexivity].
  branch; eexists; reflexivity.
Qed.

Lemma github_calls (w : env) (u : pyval) :
  exists t, calls (get_github_repo_contents w u) = Enter Fn_get_github_repo_contents :: t
            /\ providers_called t = [] /\ forallb evidence_event t = true.
Proof.
  unfold get_github_repo_contents, call_requests_get, is_Exception.
  branch; eexists; repeat split.
Qed.

Lemma drive_result (w : env) (u : pyval) :
  match print_link u with
  | Ok _ => exists v, result (get_google_drive_folder_contents w u) = Ok v
  | Raise e => result (get_google_drive_folder_contents w u) = Raise e
  end.
Proof.
  unfold get_google_drive_folder_contents, call_drive_files_list, is_Exception. run.
  destruct (print_link u); run; [| reflexivity].
  branch; eexists; reflexivity.
Qed.

Lemma drive_calls (w : env) (u : pyval) :
  exists t, calls (get_google_drive_folder_contents w u)
            = Enter Fn_get_google_drive_folder_contents :: t
            /\ providers_called t = [] /\ forallb evidence_event t = true.
Proof.
  unfold get_google_drive_folder_contents, call_drive_files_list, is_Exception.
  branch; eexists; repeat split.
Qed.

(** The scraper turns a [RequestException] into [None]; an exception of
    another class, and an exception of the print, leave the function. *)
Lemma scrape_result (w : env) (u : pyval) :
  result (scrape_website_text w u) =
  match print_link u with
  | Raise e => Raise e
  | Ok _ =>
      match requests_get w u with
      | Raise e => if is_RequestException e then Ok VNone else Raise e
      | Ok response =>
          match raise_for_status response with
          | Raise _ => Ok VNone
          | Ok _ =>
              match visible_text w (content response) with
              | Ok text => Ok (VStr text)
              | Raise e => if is_RequestException e then Ok VNone else Raise e
              end
          end
      end
  end.
Proof.
  unfold scrape_website_text, call_requests_get.
  run. destruct (print_link u); run; [| reflexivity].
  destruct (requests_get w u) as [response | e]; run.
  - unfold raise_for_status.
    destruct ((400 <=? status_code response)%Z && (status_code response <? 600)%Z); run.
    + reflexivity.
    + destruct (visible_text w (content response)) as [text | e]; run; [reflexivity |].
      destruct (is_RequestException e); reflexivity.
  - destruct (is_RequestException e); reflexivity.
Qed.

Lemma scrape_calls (w : env) (u : pyval) :
  calls (scrape_website_text w u) =
  Enter Fn_scrape_website_text ::
  match print_link u with
  | Ok _ => [RequestsGet u]
  | Raise _ => []
  end.
Proof.
  unfold scrape_website_text, call_requests_get. run.
  destruct (print_link u); run; [| reflexivity].
  branch; try reflexivity;
    match goal with |- context [is_RequestException ?e] => destruct (is_RequestException e) end;
    reflexivity.
Qed.

Lemma scrape_calls_events (w : env) (u : pyval) :
  exists t, calls (scrape_website_text w u) = Enter Fn_scrape_website_text :: t
            /\ providers_called t = [] /\ forallb evidence_event t = true.
Proof.
  rewrite scrape_calls. destruct (print_link u); eexists; repeat split.
Qed.

(** ** Substrings *)

Lemma prefix_app (a b : string) : prefix a (a ++ b) = true.
Proof.
  induction a as [| c a IH]; cbn; [now destruct b |].
  destruct (ascii_dec c c) as [_ | Hne]; [exact IH | now elim Hne].
Qed.

Lemma prefix_inv (a s : string) : prefix a s = true -> exists b, s = a ++ b.
Proof.
  revert s. induction a as [| c a IH]; intros s H.
  - now exists s.
  - destruct s as [| c' s]; cbn in H; [discriminate |].
    destruct (ascii_dec c c') as [<- | _]; [| discriminate].
    destruct (IH s H) as [b ->]. now exists b.
Qed.

Lemma contains_unfold (sub s : string) :
  contains sub s =
  if prefix sub s then true
  else match s with EmptyString => false | String _ r => contains sub r end.
Proof. destruct s; reflexivity. Qed.

(** [contains] decides [is_substring]. *)
Lemma contains_spec (sub s : string) : contains sub s = true <-> is_substring sub s.
Proof.
  split.
  - induction s as [| c s IH]; rewrite contains_unfold; intros H.
    + destruct (prefix sub EmptyString) eqn:Hp; [| discriminate].
      destruct (prefix_inv _ _ Hp) as [b Hb]. now exists EmptyString, b.
    + destruct (prefix sub (String c s)) eqn:Hp.
      * destruct (prefix_inv _ _ Hp) as [b Hb]. now exists EmptyString, b.
      * destruct (IH H) as (pre & post & ->). now exists (String c pre), post.
  - intros (pre & post & ->). induction pre as [| c pre IH]; rewrite contains_unfold.
    + cbn [append]. now rewrite prefix_app.
    + destruct (prefix sub (String c pre ++ sub ++ post)); [reflexivity | exact IH].
Qed.

Lemma contains_false (sub s : string) : contains sub s = false <-> ~ is_substring sub s.
Proof.
  rewrite <- contains_spec. destruct (contains sub s); split; intros H;
    try reflexivity; try discriminate; now elim H.
Qed.

(** ** The evidence selector *)

Lemma bind_lift_Ok {A B} (a : A) (k : A -> M B) : bind (lift (Ok a)) k = k a.
Proof. unfold bind, lift. destruct (k a); reflexivity. Qed.

(** On a URL that is a string, selection is the two substring tests. *)
Lemma gather_evidence_str (w : env) (url : string) :
  gather_evidence w (VStr url) =
  if contains "github.com" url then
    evidence <- get_github_repo_contents w (VStr url) ;;
    ret (evidence, "List of Files from GitHub")
  else if contains "drive.google.com" url then
    evidence <- get_google_drive_folder_contents w (VStr url) ;;
    ret (evidence, "List of Files from Google Drive")
  else
    evidence <- scrape_website_text w (VStr url) ;;
    ret (evidence, "Scraped Website Content").
Proof.
  unfold gather_evidence, Py.str_in. rewrite bind_lift_Ok.
  destruct (contains "github.com" url); [reflexivity |].
  rewrite bind_lift_Ok. reflexivity.
Qed.

Lemma providers_called_app (t1 t2 : list event) :
  providers_called (t1 ++ t2) = (providers_called t1 ++ providers_called t2)%list.
Proof.
  induction t1 as [| e t1 IH]; [reflexivity |].
  destruct e as [f | | |]; cbn; [| exact IH ..].
  destruct (is_provider f); cbn; now rewrite IH.
Qed.

(** Whatever the first link is, gathering evidence makes evidence events
    only, and enters at most one provider. *)
Lemma gather_evidence_calls (w : env) (u : pyval) :
  forallb evidence_event (calls (gather_evidence w u)) = true /\
  (List.length (providers_called (calls (gather_evidence w u))) <= 1)%nat.
Proof.
  unfold gather_evidence. run.
  destruct (Py.str_in "github.com" u) as [[|] | e]; run; [| | split; [reflexivity | cbn; lia]].
  - destruct (github_calls w u) as (t & -> & Hp & He).
    destruct (result (get_github_repo_contents w u)); run;
      cbn; rewrite Hp, He; split; try reflexivity; cbn; lia.
  - destruct (Py.str_in "drive.google.com" u) as [[|] | e]; run;
      [| | split; [reflexivity | cbn; lia]].
    + destruct (drive_calls w u) as (t & -> & Hp & He).
      destruct (result (get_google_drive_folder_contents w u)); run;
        cbn; rewrite Hp, He; split; try reflexivity; cbn; lia.
    + destruct (scrape_calls_events w u) as (t & -> & Hp & He).
      destruct (result (scrape_website_text w u)); run;
        cbn; rewrite Hp, He; split; try reflexivity; cbn; lia.
Qed.

Lemma providers_called_gather (w : env) (url : string) :
  providers_called (calls (gather_evidence w (VStr url))) =
  [if contains "github.com" url then Fn_get_github_repo_contents
   else if contains "drive.google.com" url then Fn_get_google_drive_folder_contents
   else Fn_scrape_website_text].
Proof.
  rewrite gather_evidence_str.
  destruct (contains "github.com" url); [| destruct (contains "drive.google.com" url)]; run.
  - destruct (github_calls w (VStr url)) as (t & -> & Hp & _).
    destruct (result (get_github_repo_contents w (VStr url))); run; cbn; now rewrite Hp.
  - destruct (drive_calls w (VStr url)) as (t & -> & Hp & _).
    destruct (result (get_google_drive_folder_contents w (VStr url))); run; cbn;
      now rewrite Hp.
  - destruct (scrape_calls_events w (VStr url)) as (t & -> & Hp & _).
    destruct (result (scrape_website_text w (VStr url))); run; cbn; now rewrite Hp.
Qed.

(** ** The orchestrator: from the first link on *)

Lemma getitem0_truthy (links v : pyval) : Py.getitem0 links = Ok v -> Py.truthy links = true.
Proof.
  destruct links as [| | | | s | [| x l] | d]; try discriminate; try reflexivity.
  destruct s; [discriminate | reflexivity].
Qed.

(** The run once the first link is read: evidence is gathered; without
    evidence the run ends there, with evidence the judge is asked and its
    verdict turned into the outcome. *)
Lemma verdict_from_provider (w : env) (cd : pyval) (role : string) (proof_url : pyval) :
  reaches_provider w cd role proof_url ->
  result (get_ai_dispute_verdict w cd) =
  match result (gather_evidence w proof_url) with
  | Raise e => Raise e
  | Ok gathered =>
      if Py.truthy (fst gathered) then
        match result (_verify_proof_with_role w cd (fst gathered) (snd gathered) role) with
        | Ok verdict => verdict_outcome verdict
        | Raise e => Raise e
        end
      else Ok (outcome "not accepted"
                 (VStr ("Could not access or process the proof from the provided link: "
                        ++ py_str w proof_url)))
  end
  /\
  calls (get_ai_dispute_verdict w cd) =
  (Enter Fn_get_ai_dispute_verdict :: calls (_classify_freelancer_role w cd)
   ++ calls (gather_evidence w proof_url)
   ++ match result (gather_evidence w proof_url) with
      | Raise _ => []
      | Ok gathered =>
          if Py.truthy (fst gathered)
          then calls (_verify_proof_with_role w cd (fst gathered) (snd gathered) role)
          else []
      end)%list.
Proof.
  intros (links & Hrole & Hknown & Hlinks & Hfirst).
  apply String.eqb_neq in Hknown.
  unfold get_ai_dispute_verdict. run. rewrite Hrole. run. rewrite Hknown. run.
  rewrite Hlinks. run. rewrite (getitem0_truthy _ _ Hfirst).
  cbv beta iota delta [negb]. run. rewrite Hfirst. run.
  destruct (result (gather_evidence w proof_url)) as [gathered | e]; run;
    [| split; reflexivity].
  destruct (Py.truthy (fst gathered)); cbv beta iota delta [negb]; run.
  - destruct (result (_verify_proof_with_role w cd (fst gathered) (snd gathered) role));
      run; split; reflexivity.
  - split; reflexivity.
Qed.

Lemma not_evidence_event_not_in (e : event) (t : list event) :
  evidence_event e = false -> forallb evidence_event t = true -> ~ In e t.
Proof.
  intros He Ht Hin. rewrite forallb_forall in Ht. rewrite (Ht e Hin) in He. discriminate.
Qed.

Lemma classify_does_not_enter_judge (w : env) (cd : pyval) :
  ~ In (Enter Fn_verify_proof_with_role) (calls (_classify_freelancer_role w cd)).
Proof.
  rewrite classify_calls. destruct (classify_request w cd); cbn; intuition discriminate.
Qed.

(** C5: when the run reaches the provider of the first link and the
    provider brings no evidence ([None]; an empty listing or empty text
    counts the same), the outcome is the dict with status "not accepted" and
    the reason "Could not access or process the proof from the provided
    link: " followed by the link (the link itself when it is a string), and
    the judge is not entered. *)
Theorem no_evidence_ends_run_before_judge (w : env) (cd : pyval) (role : string)
    (proof_url evidence : pyval) (evidence_type : string) :
  reaches_provider w cd role proof_url ->
  result (gather_evidence w proof_url) = Ok (evidence, evidence_type) ->
  Py.truthy evidence = false ->
  result (get_ai_dispute_verdict w cd)
  = Ok (VDict [("status", VStr "not accepted");
               ("reason",
                VStr ("Could not access or process the proof from the provided link: "
                      ++ py_str w proof_url))])
  /\ (forall url, proof_url = VStr url ->
        result (get_ai_dispute_verdict w cd)
        = Ok (VDict [("status", VStr "not accepted");
                     ("reason",
                      VStr ("Could not access or process the proof from the provided link: "
                            ++ url))]))
  /\ ~ In (Enter Fn_verify_proof_with_role) (calls (get_ai_dispute_verdict w cd))
  /\ (forall prompt, In (GenerateContent prompt) (calls (get_ai_dispute_verdict w cd)) ->
        classify_request w cd = Ok prompt).
Proof.
  intros Hreach Hgather Hfalsy.
  destruct (verdict_from_provider w cd role proof_url Hreach) as [Hres Hcalls].
  rewrite Hgather in Hres, Hcalls. cbn [fst snd] in Hres, Hcalls.
  rewrite Hfalsy in Hres, Hcalls. rewrite app_nil_r in Hcalls.
  split; [exact Hres |]. split; [intros url Hurl; rewrite Hurl in Hres; exact Hres |].
  rewrite Hcalls.
  destruct (gather_evidence_calls w proof_url) as [Hev _].
  split.
  - intros [Hin | Hin]; [discriminate |].
    apply in_app_or in Hin. destruct Hin as [Hin | Hin].
    + exact (classify_does_not_enter_judge w cd Hin).
    + exact (not_evidence_event_not_in (Enter Fn_verify_proof_with_role) _ eq_refl Hev Hin).
  - intros prompt [Hin | Hin]; [discriminate |].
    apply in_app_or in Hin. destruct Hin as [Hin | Hin].
    + rewrite classify_calls in Hin.
      destruct (classify_request w cd) as [request | e]; cbn in Hin.
      * destruct Hin as [Hin | [Hin | []]]; [discriminate | now injection Hin as ->].
      * destruct Hin as [Hin | []]; discriminate.
    + elim (not_evidence_event_not_in (GenerateContent prompt) _ eq_refl Hev Hin).
Qed.

Lemma no_evidence_ends_run_before_judge_witness :
  result (get_ai_dispute_verdict Scenario.host_404
            (Scenario.contract [VStr "https://github.com/acme/widgets"]))
  = Ok (VDict [("status", VStr "not accepted");
               ("reason", VStr "Could not access or process the proof from the provided link: https://github.com/acme/widgets")]).
Proof.
  refine (proj1 (proj2 (no_evidence_ends_run_before_judge Scenario.host_404
                   (Scenario.contract [VStr "https://github.com/acme/widgets"])
                   "Web Developer" (VStr "https://github.com/acme/widgets")
                   VNone "List of Files from GitHub" _ _ _))
            "https://github.com/acme/widgets" eq_refl).
  - exists (VList [VStr "https://github.com/acme/widgets"]).
    repeat split; try (vm_compute; reflexivity). discriminate.
  - vm_compute. reflexivity.
  - reflexivity.
Defined.

Lemma providers_called_classify (w : env) (cd : pyval) :
  providers_called (calls (_classify_freelancer_role w cd)) = [].
Proof. rewrite classify_calls. destruct (classify_request w cd); reflexivity. Qed.

(** ** The verdict judge *)

Lemma verify_result (w : env) (cd evidence : pyval) (ety role : string) :
  result (_verify_proof_with_role w cd evidence ety role) =
  match verify_prompt w cd evidence ety with
  | Raise e => Raise e
  | Ok prompt =>
      match generate_content w prompt with
      | Raise e => Ok (error_verdict e)
      | Ok text =>
          match json_loads w (strip_code_fence text) with
          | Ok verdict => Ok verdict
          | Raise e => Ok (error_verdict e)
          end
      end
  end.
Proof.
  unfold _verify_proof_with_role, call_generate_content, is_Exception. run.
  destruct (verify_prompt w cd evidence ety) as [prompt | e]; run; [| reflexivity].
  destruct (generate_content w prompt) as [text | e]; run; [| reflexivity].
  destruct (json_loads w (strip_code_fence text)); run; reflexivity.
Qed.

Lemma verify_calls (w : env) (cd evidence : pyval) (ety role : string) :
  calls (_verify_proof_with_role w cd evidence ety role) =
  Enter Fn_verify_proof_with_role ::
  match verify_prompt w cd evidence ety with
  | Raise _ => []
  | Ok prompt => [GenerateContent prompt]
  end.
Proof.
  unfold _verify_proof_with_role, call_generate_content, is_Exception. run.
  destruct (verify_prompt w cd evidence ety) as [prompt | e]; run; [| reflexivity].
  destruct (generate_content w prompt) as [text | e]; run; [| reflexivity].
  destruct (json_loads w (strip_code_fence text)); run; reflexivity.
Qed.

(** The judge's prompt uses the contract as the classifier's request does:
    where that one was built, so is this one. *)
Lemma verify_prompt_built (w : env) (cd evidence : pyval) (ety request : string) :
  classify_request w cd = Ok request ->
  exists prompt, verify_prompt w cd evidence ety = Ok prompt.
Proof.
  unfold classify_request, verify_prompt, res_bind.
  destruct (Py.get cd "projectDescription" (VStr EmptyString)); [| discriminate].
  destruct (Py.get cd "task" (VList [])) as [task |]; [| discriminate].
  destruct (Py.join (nl ++ "- ") task); [| discriminate].
  intros _. eexists; reflexivity.
Qed.

(** The two prompts of a run are different texts, so one function of the
    prompt gives the answer to each. *)
Lemma prompts_differ (w : env) (pd : pyval) (tasks pd' tasks' ety ev : string) :
  classify_prompt w pd tasks <> verify_template pd' tasks' ety ev.
Proof.
  intros H.
  apply (f_equal (fun s => match s with String c _ => Some c | EmptyString => None end)) in H.
  discriminate H.
Qed.

(** C2: with a first link that is a string, the provider the run calls is
    fixed by two substring tests on it, in this order: "github.com" selects
    the repository listing (whatever else the link contains),
    "drive.google.com" without "github.com" the folder listing, and any other
    link the scraper.  In each case evidence gathering is the call of that
    provider and nothing else, so the choice itself raises nothing. *)
Theorem provider_selected_by_substring (w : env) (cd : pyval) (role url : string) :
  reaches_provider w cd role (VStr url) ->
  let called := providers_called (calls (get_ai_dispute_verdict w cd)) in
  (is_substring "github.com" url ->
     called = [Fn_get_github_repo_contents] /\
     gather_evidence w (VStr url)
     = (evidence <- get_github_repo_contents w (VStr url) ;;
        ret (evidence, "List of Files from GitHub"))) /\
  (~ is_substring "github.com" url -> is_substring "drive.google.com" url ->
     called = [Fn_get_google_drive_folder_contents] /\
     gather_evidence w (VStr url)
     = (evidence <- get_google_drive_folder_contents w (VStr url) ;;
        ret (evidence, "List of Files from Google Drive"))) /\
  (~ is_substring "github.com" url -> ~ is_substring "drive.google.com" url ->
     called = [Fn_scrape_website_text] /\
     gather_evidence w (VStr url)
     = (evidence <- scrape_website_text w (VStr url) ;;
        ret (evidence, "Scraped Website Content"))).
Proof.
  intros Hreach called.
  assert (Hcalled : called = providers_called (calls (gather_evidence w (VStr url)))).
  { subst called.
    destruct (verdict_from_provider w cd role (VStr url) Hreach) as [_ ->].
    change (Enter Fn_get_ai_dispute_verdict :: ?t)
      with ([Enter Fn_get_ai_dispute_verdict] ++ t)%list.
    rewrite !providers_called_app, providers_called_classify.
    cbn [providers_called is_provider app].
    destruct (result (gather_evidence w (VStr url))) as [gathered |];
      [| now rewrite app_nil_r].
    destruct (Py.truthy (fst gathered)); [| now rewrite app_nil_r].
    rewrite verify_calls. destruct (verify_prompt w cd (fst gathered) (snd gathered));
      cbn; now rewrite app_nil_r. }
  rewrite Hcalled, providers_called_gather, gather_evidence_str.
  repeat split.
  - apply contains_spec in H. now rewrite H.
  - apply contains_spec in H. now rewrite H.
  - apply contains_false in H. apply contains_spec in H0. now rewrite H, H0.
  - apply contains_false in H. apply contains_spec in H0. now rewrite H, H0.
  - apply contains_false in H, H0. now rewrite H, H0.
  - apply contains_false in H, H0. now rewrite H, H0.
Qed.

Lemma provider_selected_by_substring_witness :
  providers_called
    (calls (get_ai_dispute_verdict Scenario.all_up
              (Scenario.contract [VStr "https://github.com/acme/drive.google.com"])))
  = [Fn_get_github_repo_contents].
Proof.
  assert (Hreach : reaches_provider Scenario.all_up
                     (Scenario.contract [VStr "https://github.com/acme/drive.google.com"])
                     "Web Developer" (VStr "https://github.com/acme/drive.google.com")).
  { exists (VList [VStr "https://github.com/acme/drive.google.com"]).
    repeat split; try (vm_compute; reflexivity). discriminate. }
  refine (proj1 (proj1 (provider_selected_by_substring _ _ _ _ Hreach) _)).
  exists "https://", "/acme/drive.google.com". reflexivity.
Defined.

Lemma eq_str_spec (v : pyval) (s : string) : Py.eq_str v s = true <-> v = VStr s.
Proof.
  destruct v; cbn; try (split; discriminate).
  rewrite String.eqb_eq. split; [now intros -> | now intros [= ->]].
Qed.

(** C1: when the run reaches the judge and the judge's verdict has the
    decision [decision] and the justification [justification] (any value,
    the empty string too), the outcome is the dict of a status and a reason:
    the reason is the justification and the status depends on the decision
    only, "accepted" when the decision is "approved", "not accepted" for
    every other decision. *)
Theorem outcome_follows_decision (w : env) (cd : pyval) (role : string)
    (evidence : pyval) (evidence_type : string) (verdict decision justification : pyval) :
  reaches_judge w cd role evidence evidence_type ->
  result (_verify_proof_with_role w cd evidence evidence_type role) = Ok verdict ->
  Py.get verdict "decision" VNone = Ok decision ->
  Py.get verdict "justification" VNone = Ok justification ->
  (decision = VStr "approved" ->
     result (get_ai_dispute_verdict w cd)
     = Ok (VDict [("status", VStr "accepted"); ("reason", justification)])) /\
  (decision <> VStr "approved" ->
     result (get_ai_dispute_verdict w cd)
     = Ok (VDict [("status", VStr "not accepted"); ("reason", justification)])).
Proof.
  intros (proof_url & Hreach & Hgather & Htruthy) Hverdict Hdecision Hjustification.
  destruct (verdict_from_provider w cd role proof_url Hreach) as [-> _].
  rewrite Hgather. cbn [fst snd]. rewrite Htruthy, Hverdict.
  unfold verdict_outcome. rewrite Hdecision, Hjustification. cbn [res_bind].
  split; intros H.
  - apply eq_str_spec in H. now rewrite H.
  - destruct (Py.eq_str decision "approved") eqn:E; [| reflexivity].
    apply eq_str_spec in E. now elim H.
Qed.

Lemma outcome_follows_decision_witness :
  result (get_ai_dispute_verdict Scenario.all_up
            (Scenario.contract [VStr "https://github.com/acme/widgets"]))
  = Ok (VDict [("status", VStr "accepted");
               ("reason", VStr "Matches described landing page work.")]).
Proof.
  refine (proj1 (outcome_follows_decision Scenario.all_up
                   (Scenario.contract [VStr "https://github.com/acme/widgets"])
                   "Web Developer" (VList [VStr "index.html"; VStr "style.css"])
                   "List of Files from GitHub" Scenario.approved_verdict
                   (VStr "approved") (VStr "Matches described landing page work.")
                   _ _ eq_refl eq_refl) eq_refl).
  - exists (VStr "https://github.com/acme/widgets"). split; [| split].
    + exists (VList [VStr "https://github.com/acme/widgets"]).
      repeat split; try (vm_compute; reflexivity). discriminate.
    + vm_compute. reflexivity.
    + reflexivity.
  - vm_compute. reflexivity.
Defined.

(** In a run that reaches the judge, the judge's prompt is built. *)
Lemma reaches_judge_prompt (w : env) (cd : pyval) (role : string)
    (evidence : pyval) (evidence_type : string) :
  reaches_judge w cd role evidence evidence_type ->
  exists prompt, verify_prompt w cd evidence evidence_type = Ok prompt.
Proof.
  intros (proof_url & (links & Hrole & Hknown & _) & _).
  destruct (classify_known_request w cd role Hrole Hknown) as [request Hrequest].
  exact (verify_prompt_built w cd evidence evidence_type request Hrequest).
Qed.

(** ** Failures inside the providers *)

(** Once the link is printed, the two listing providers hand every
    exception back as [None]. *)
Lemma listing_providers_never_raise (w : env) (u : pyval) :
  print_link u = Ok tt ->
  (exists v, result (get_github_repo_contents w u) = Ok v) /\
  (exists v, result (get_google_drive_folder_contents w u) = Ok v).
Proof.
  intros Hprint. pose proof (github_result w u) as Hg. pose proof (drive_result w u) as Hd.
  rewrite Hprint in Hg, Hd. now split.
Qed.

Lemma print_link_raises (u : pyval) (e : exn) :
  print_link u = Raise e ->
  (exists s, u = VStr s /\ encodable s = false) /\ is_RequestException e = false.
Proof.
  destruct u; try discriminate. cbn [print_link].
  destruct (encodable s) eqn:E; [discriminate |]. intros [= <-]. split; [| reflexivity].
  now exists s.
Qed.

Lemma print_link_encodable (u : pyval) :
  (forall s, u = VStr s -> encodable s = true) -> print_link u = Ok tt.
Proof.
  intros H. destruct u; try reflexivity. cbn [print_link]. now rewrite (H s eq_refl).
Qed.

Lemma print_link_surrogate (s : string) :
  encodable s = false ->
  print_link (VStr s) = Raise (Exn (OtherException "UnicodeEncodeError") "surrogates not allowed").
Proof. intros H. cbn [print_link]. now rewrite H. Qed.

(** An exception of the print leaves the provider at once. *)
Lemma providers_print_raises (w : env) (u : pyval) (e : exn) :
  print_link u = Raise e ->
  get_github_repo_contents w u = (Raise e, [Enter Fn_get_github_repo_contents]) /\
  get_google_drive_folder_contents w u
  = (Raise e, [Enter Fn_get_google_drive_folder_contents]) /\
  scrape_website_text w u = (Raise e, [Enter Fn_scrape_website_text]).
Proof.
  intros H.
  unfold get_github_repo_contents, get_google_drive_folder_contents, scrape_website_text.
  rewrite H. repeat split.
Qed.

(** What leaves the scraper is never a [RequestException]. *)
Lemma scrape_raises_other_only (w : env) (u : pyval) (e : exn) :
  result (scrape_website_text w u) = Raise e -> is_RequestException e = false.
Proof.
  rewrite scrape_result.
  destruct (print_link u) as [[] | e0] eqn:P;
    [| intros [= <-]; exact (proj2 (print_link_raises u e0 P))].
  destruct (requests_get w u) as [response | e'].
  - destruct (raise_for_status response); [| discriminate].
    destruct (visible_text w (content response)) as [text | e']; [discriminate |].
    destruct (is_RequestException e') eqn:E; [discriminate |]. now intros [= <-].
  - destruct (is_RequestException e') eqn:E; [discriminate |]. now intros [= <-].
Qed.

(** C7, at the failing input: the page is fetched with status 200 and the
    HTML parser rejects its markup.  The exception is not a
    [requests.RequestException], so [scrape_website_text] does not turn it
    into [None]: it leaves the provider, leaves the pipeline, and the
    endpoint answers 500. *)
Theorem scrape_parse_error_escapes :
  result (scrape_website_text Scenario.page_unparsable (VStr "https://example.com/portfolio"))
  = Raise Scenario.parser_rejected
  /\ result (get_ai_dispute_verdict Scenario.page_unparsable
               (Scenario.contract [VStr "https://example.com/portfolio"]))
     = Raise Scenario.parser_rejected
  /\ result (handle_dispute Scenario.page_unparsable
               (Ok (Scenario.body (Scenario.contract [VStr "https://example.com/portfolio"]))))
     = Ok (VDict [("ok", VBool false);
                  ("error", VStr "An internal server error occurred.")], 500%Z).
Proof. repeat split; vm_compute; reflexivity. Qed.

(** ** Owner and repository out of the URL *)

Lemma list_ascii_app (a b : string) :
  list_ascii_of_string (a ++ b) = (list_ascii_of_string a ++ list_ascii_of_string b)%list.
Proof. induction a as [| c a IH]; cbn; [reflexivity | now rewrite IH]. Qed.

Lemma string_of_list_app (a b : list ascii) :
  string_of_list_ascii (a ++ b) = string_of_list_ascii a ++ string_of_list_ascii b.
Proof. induction a as [| c a IH]; cbn; [reflexivity | now rewrite IH]. Qed.

Lemma reversed_app (a b : string) : reversed (a ++ b) = reversed b ++ reversed a.
Proof. unfold reversed. now rewrite list_ascii_app, rev_app_distr, string_of_list_app. Qed.

Lemma reversed_involutive (s : string) : reversed (reversed s) = s.
Proof.
  unfold reversed.
  now rewrite list_ascii_of_string_of_list_ascii, rev_involutive, string_of_list_ascii_of_string.
Qed.

(** [endswith] decides [is_suffix]. *)
Lemma endswith_spec (suffix s : string) : endswith suffix s = true <-> is_suffix suffix s.
Proof.
  unfold endswith. split.
  - intros H. destruct (prefix_inv _ _ H) as [b Hb]. exists (reversed b).
    rewrite <- (reversed_involutive s), Hb, reversed_app. now rewrite reversed_involutive.
  - intros [stem ->]. rewrite reversed_app. apply prefix_app.
Qed.

Lemma concat_cons_byte (c : ascii) (h : string) (t : list string) :
  String.concat EmptyString (String c h :: t) = String c (String.concat EmptyString (h :: t)).
Proof. destruct t; reflexivity. Qed.

Lemma concat_cons_char (c : ascii) (l : list string) :
  String.concat EmptyString (String c EmptyString :: l) = String c (String.concat EmptyString l).
Proof. destruct l; reflexivity. Qed.

Lemma utf8_chars_unfold (c : ascii) (r : string) :
  utf8_chars (String c r) =
  match r, utf8_chars r with
  | String c' _, h :: t =>
      if is_continuation c' then String c h :: t else String c EmptyString :: utf8_chars r
  | _, _ => String c EmptyString :: utf8_chars r
  end.
Proof. destruct r; reflexivity. Qed.

(** The code points of a string, put together again, are the string. *)
Lemma concat_utf8_chars (s : string) : String.concat EmptyString (utf8_chars s) = s.
Proof.
  induction s as [| c r IH]; [reflexivity |]. rewrite utf8_chars_unfold.
  destruct r as [| c' r']; [reflexivity |].
  destruct (utf8_chars (String c' r')) as [| h t] eqn:E.
  - rewrite concat_cons_char. now rewrite IH.
  - destruct (is_continuation c').
    + rewrite concat_cons_byte. now rewrite IH.
    + rewrite concat_cons_char. now rewrite IH.
Qed.

Lemma utf8_chars_nonempty (c : ascii) (r : string) : utf8_chars (String c r) <> [].
Proof.
  rewrite utf8_chars_unfold. destruct r as [| c' r']; [discriminate |].
  destruct (utf8_chars (String c' r')); [discriminate |].
  destruct (is_continuation c'); discriminate.
Qed.

(** A string that begins a code point does not change the code points of
    the string it is appended to. *)
Lemma utf8_chars_app (s1 s2 : string) :
  match s2 with String c _ => is_continuation c = false | EmptyString => True end ->
  utf8_chars (s1 ++ s2) = (utf8_chars s1 ++ utf8_chars s2)%list.
Proof.
  intros Hs2. induction s1 as [| c r IH]; [reflexivity |].
  destruct r as [| c' r'].
  - cbn [append]. rewrite utf8_chars_unfold.
    change (utf8_chars (String c EmptyString)) with [String c EmptyString].
    destruct s2 as [| c2 r2]; [reflexivity |].
    cbv beta iota. rewrite Hs2.
    destruct (utf8_chars (String c2 r2)); reflexivity.
  - cbn [append] in *.
    rewrite (utf8_chars_unfold c (String c' (r' ++ s2))), IH,
      (utf8_chars_unfold c (String c' r')).
    cbv beta iota. pose proof (utf8_chars_nonempty c' r') as Hne.
    destruct (utf8_chars (String c' r')) as [| h t]; [now elim Hne |].
    cbn [app]. destruct (is_continuation c'); reflexivity.
Qed.

Lemma drop_last_git (stem : string) : drop_last 4 (stem ++ ".git") = stem.
Proof.
  unfold drop_last. rewrite utf8_chars_app by reflexivity.
  change (utf8_chars ".git") with ["."; "g"; "i"; "t"].
  rewrite length_app. cbn [List.length]. rewrite Nat.add_sub.
  rewrite firstn_app, Nat.sub_diag, firstn_all. cbn [firstn]. rewrite app_nil_r.
  apply concat_utf8_chars.
Qed.

Lemma index_from_end_last_two (pre : list string) (a b : string) :
  Py.index_from_end (pre ++ [a; b]) 2 = Ok a /\ Py.index_from_end (pre ++ [a; b]) 1 = Ok b.
Proof. unfold Py.index_from_end. rewrite rev_app_distr. split; reflexivity. Qed.

(** C9: owner and repository are the last two of the segments the URL,
    without its outer slashes, splits into at "/"; a repository segment that
    ends with ".git" loses that suffix, any other is kept whole.  For
    "https://github.com/acme/widgets.git" this gives "acme" and "widgets", and
    the contents request goes to the repository of that name. *)
Theorem repo_url_owner_and_repo :
  parse_owner_repo "https://github.com/acme/widgets.git" = Ok ("acme", "widgets") /\
  (forall url pre owner last,
     split "/" (strip_chars "/" url) = (pre ++ [owner; last])%list ->
     (forall stem, last = stem ++ ".git" -> parse_owner_repo url = Ok (owner, stem)) /\
     (~ is_suffix ".git" last -> parse_owner_repo url = Ok (owner, last))) /\
  (forall w,
     calls (get_github_repo_contents w (VStr "https://github.com/acme/widgets.git"))
     = [Enter Fn_get_github_repo_contents;
        RequestsGet (VStr "https://api.github.com/repos/acme/widgets/contents/")]).
Proof.
  split; [vm_compute; reflexivity |]. split.
  - intros url pre owner last Hparts. unfold parse_owner_repo. rewrite Hparts.
    destruct (index_from_end_last_two pre owner last) as [-> ->]. cbn [res_bind].
    split.
    + intros stem ->.
      assert (H : endswith ".git" (stem ++ ".git") = true)
        by (apply endswith_spec; now exists stem).
      now rewrite H, drop_last_git.
    + intros Hno. destruct (endswith ".git" last) eqn:E; [| reflexivity].
      apply endswith_spec in E. now elim Hno.
  - intros w. unfold get_github_repo_contents, call_requests_get, is_Exception. run.
    replace (print_link (VStr "https://github.com/acme/widgets.git"))
      with (Ok tt) by (vm_compute; reflexivity).
    run.
    change (Py.as_str (VStr "https://github.com/acme/widgets.git"))
      with (Ok "https://github.com/acme/widgets.git").
    run.
    replace (parse_owner_repo "https://github.com/acme/widgets.git")
      with (Ok ("acme", "widgets")) by (vm_compute; reflexivity).
    run. cbn [fst snd].
    change ("https://api.github.com/repos/" ++ "acme" ++ "/" ++ "widgets" ++ "/contents/")
      with "https://api.github.com/repos/acme/widgets/contents/".
    branch; reflexivity.
Qed.

Lemma repo_url_owner_and_repo_witness :
  parse_owner_repo "https://github.com/acme/widgets.git/" = Ok ("acme", "widgets").
Proof.
  destruct repo_url_owner_and_repo as (_ & H & _).
  refine (proj1 (H "https://github.com/acme/widgets.git/" ["https:"; EmptyString; "github.com"]
                   "acme" "widgets.git" _) "widgets" eq_refl).
  vm_compute. reflexivity.
Defined.

(* ================================================================= *)
(** * Checks on concrete inputs *)

(** ** The string operations *)

Example contains_ex : contains "github.com" "https://github.com/acme/widgets" = true.
Proof. reflexivity. Qed.

Example contains_not_ex : contains "drive.google.com" "https://github.com/acme/widgets" = false.
Proof. reflexivity. Qed.

Example strip_ex :
  strip ("  " ++ dq ++ "Web Developer" ++ dq ++ nl) = dq ++ "Web Developer" ++ dq.
Proof. reflexivity. Qed.

(** U+00A0 and U+3000 are stripped, a letter with a two-byte encoding stays. *)
Example strip_unicode_ex :
  strip (String "194" (String "160" (String "195" (String "169"
          (String "227" (String "128" (String "128" EmptyString)))))))
  = String "195" (String "169" EmptyString).
Proof. reflexivity. Qed.

Example clean_role_ex : clean_role (" " ++ dq ++ "Content Writer" ++ dq ++ nl) = "Content Writer".
Proof. reflexivity. Qed.

Example strip_code_fence_ex : strip_code_fence ("```json{}```" ++ nl) = "{}".
Proof. reflexivity. Qed.

Example split_ex : split "/" "a//b/" = ["a"; EmptyString; "b"; EmptyString].
Proof. reflexivity. Qed.

Example split_url_ex :
  split "/" (strip_chars "/" "https://github.com/acme/widgets/")
  = ["https:"; EmptyString; "github.com"; "acme"; "widgets"].
Proof. reflexivity. Qed.

Example drop_last_ex : drop_last 4 "widgets.git" = "widgets".
Proof. reflexivity. Qed.

Example endswith_ex : endswith ".git" "widgets.git" = true /\ endswith ".git" "git" = false.
Proof. split; reflexivity. Qed.

Example replace_ex : replace "aa" "b" "aaaaa" = "bba".
Proof. reflexivity. Qed.

(** ** The providers *)

Example parse_no_suffix_ex :
  parse_owner_repo "https://github.com/acme/widgets" = Ok ("acme", "widgets").
Proof. vm_compute. reflexivity. Qed.

Example parse_one_segment_ex :
  parse_owner_repo "widgets" = Raise (IndexError "list index out of range").
Proof. vm_compute. reflexivity. Qed.

Example github_listing_ex :
  get_github_repo_contents Scenario.all_up (VStr "https://github.com/acme/widgets")
  = (Ok (VList [VStr "index.html"; VStr "style.css"]),
     [Enter Fn_get_github_repo_contents;
      RequestsGet (VStr "https://api.github.com/repos/acme/widgets/contents/")]).
Proof. vm_compute. reflexivity. Qed.

Example github_404_ex :
  result (get_github_repo_contents Scenario.host_404 (VStr "https://github.com/acme/widgets"))
  = Ok VNone.
Proof. vm_compute. reflexivity. Qed.

Example drive_listing_ex :
  get_google_drive_folder_contents Scenario.all_up
    (VStr "https://drive.google.com/drive/folders/1AbC?usp=sharing")
  = (Ok (VList [VStr "mockup.fig"]),
     [Enter Fn_get_google_drive_folder_contents; DriveList "'1AbC' in parents"]).
Proof. vm_compute. reflexivity. Qed.

(** ** The scenarios of the specification *)

(** Scenario C: one repository link, a listing, an approving verdict. *)
Example scenario_C :
  handle_dispute Scenario.all_up
    (Ok (Scenario.body (Scenario.contract [VStr "https://github.com/acme/widgets"])))
  = (Ok (VDict [("ok", VBool true); ("status", VStr "accepted");
                ("reason", VStr "Matches described landing page work.")], 200%Z),
     [Enter Fn_handle_dispute;
      Enter Fn_get_ai_dispute_verdict;
      Enter Fn_classify_freelancer_role;
      GenerateContent (classify_prompt Scenario.all_up (VStr "Build a landing page")
                         "design mockup");
      Enter Fn_get_github_repo_contents;
      RequestsGet (VStr "https://api.github.com/repos/acme/widgets/contents/");
      Enter Fn_verify_proof_with_role;
      GenerateContent (verify_template "Build a landing page" "design mockup"
                         "List of Files from GitHub" "['index.html', 'style.css']")]).
Proof. vm_compute. reflexivity. Qed.

(** Scenario D: a generic link whose fetch fails. *)
Example scenario_D :
  result (handle_dispute
            (Scenario.services (Scenario.model (Ok "Web Developer") (Ok Scenario.approved_json))
               (fun _ => Raise Scenario.connection_error) (fun _ => Ok "Landing"))
            (Ok (Scenario.body (Scenario.contract [VStr "https://example.com/portfolio"]))))
  = Ok (VDict [("ok", VBool true); ("status", VStr "not accepted");
               ("reason", VStr "Could not access or process the proof from the provided link: https://example.com/portfolio")],
        200%Z).
Proof. vm_compute. reflexivity. Qed.

(** A request that is not JSON, and a body that is not an object, end in
    the handler of the endpoint. *)
Example bad_request_ex :
  result (handle_dispute Scenario.all_up (Raise (Exn (OtherException "BadRequest") "400")))
  = Ok (VDict [("ok", VBool false); ("error", VStr "An internal server error occurred.")], 500%Z)
  /\ result (handle_dispute Scenario.all_up (Ok (VList [])))
     = Ok (VDict [("ok", VBool false); ("error", VStr "An internal server error occurred.")], 500%Z).
Proof. split; vm_compute; reflexivity. Qed.

(** A verdict that decodes to something other than an object has no
    [get]: the run ends with the [AttributeError] and the endpoint answers
    500. *)
Example non_object_verdict_ex :
  result (_verify_proof_with_role Scenario.ai_array
            (Scenario.contract [VStr "https://github.com/acme/widgets"])
            (VList [VStr "index.html"; VStr "style.css"]) "List of Files from GitHub"
            "Web Developer")
  = Ok (VList [])
  /\ result (get_ai_dispute_verdict Scenario.ai_array
               (Scenario.contract [VStr "https://github.com/acme/widgets"]))
     = Raise (AttributeError "object has no attribute 'get'")
  /\ result (handle_dispute Scenario.ai_array
               (Ok (Scenario.body (Scenario.contract [VStr "https://github.com/acme/widgets"]))))
     = Ok (VDict [("ok", VBool false); ("error", VStr "An internal server error occurred.")], 500%Z).
Proof. repeat split; vm_compute; reflexivity. Qed.

(* ================================================================= *)
(** * Further properties of the module *)

(** ** Splitting and stripping *)

Lemma split_nonempty (sep : ascii) (s : string) : split sep s <> [].
Proof.
  induction s as [| c r IH]; cbn; [discriminate |].
  destruct (Ascii.eqb c sep); [discriminate |].
  destruct (split sep r); discriminate.
Qed.

Lemma split_cons (sep c : ascii) (r : string) :
  split sep (String c r) =
  if Ascii.eqb c sep then EmptyString :: split sep r
  else match split sep r with
       | h :: t => String c h :: t
       | [] => [String c EmptyString]
       end.
Proof. reflexivity. Qed.

(** No segment of a split holds the separator. *)
Lemma split_segments_free (sep : ascii) (s x : string) :
  In x (split sep s) -> ~ has_char sep x.
Proof.
  unfold has_char. revert x. induction s as [| c r IH]; intros x Hx.
  - destruct Hx as [<- | []]. intros [].
  - rewrite split_cons in Hx. destruct (Ascii.eqb c sep) eqn:E.
    + destruct Hx as [<- | Hx]; [intros [] | now apply IH].
    + pose proof (split_nonempty sep r) as Hne.
      destruct (split sep r) as [| h t]; [now elim Hne |].
      destruct Hx as [<- | Hx]; [| apply IH; now right].
      cbn. intros [-> | Hin].
      * now rewrite Ascii.eqb_refl in E.
      * exact (IH h (or_introl eq_refl) Hin).
Qed.

(** A string without the separator is its own single segment. *)
Lemma split_free (sep : ascii) (s : string) : ~ has_char sep s -> split sep s = [s].
Proof.
  unfold has_char. induction s as [| c r IH]; intros H; [reflexivity |].
  rewrite split_cons. destruct (Ascii.eqb c sep) eqn:E.
  - apply Ascii.eqb_eq in E. subst c. elim H. now left.
  - rewrite IH; [reflexivity |]. intros Hin. apply H. now right.
Qed.

(** Splitting goes through a separator: the segments before it, then the
    segments after it. *)
Lemma split_app (sep : ascii) (a b : string) :
  split sep (a ++ String sep b) = (split sep a ++ split sep b)%list.
Proof.
  induction a as [| c a IH].
  - cbn [append]. rewrite split_cons, Ascii.eqb_refl. reflexivity.
  - cbn [append]. rewrite !split_cons, IH. destruct (Ascii.eqb c sep); [reflexivity |].
    pose proof (split_nonempty sep a) as Hne.
    destruct (split sep a); [now elim Hne | reflexivity].
Qed.

Lemma concat_cons2 (sep x y : string) (l : list string) :
  String.concat sep (x :: y :: l) = x ++ sep ++ String.concat sep (y :: l).
Proof. reflexivity. Qed.

(** Joining the segments with the separator gives the string back. *)
Lemma join_split (sep : ascii) (s : string) :
  join (String sep EmptyString) (split sep s) = s.
Proof.
  unfold join. induction s as [| c r IH]; [reflexivity |].
  rewrite split_cons. pose proof (split_nonempty sep r) as Hne.
  destruct (split sep r) as [| h t]; [now elim Hne |].
  destruct (Ascii.eqb c sep) eqn:E.
  - apply Ascii.eqb_eq in E. subst c. rewrite concat_cons2, IH. reflexivity.
  - destruct t as [| h' t'].
    + cbn [String.concat] in *. now rewrite IH.
    + rewrite concat_cons2 in *. cbn [append] in *. now rewrite IH.
Qed.

Lemma index_from_end_last (pre : list string) (x : string) :
  Py.index_from_end (pre ++ [x]) 1 = Ok x.
Proof. unfold Py.index_from_end. rewrite rev_app_distr. reflexivity. Qed.

Lemma has_char_app (c : ascii) (a b : string) :
  has_char c (a ++ b) <-> has_char c a \/ has_char c b.
Proof. unfold has_char. rewrite list_ascii_app. apply in_app_iff. Qed.

(** ** The code fence around the judge's answer *)

Lemma str_app_nil_r (s : string) : s ++ EmptyString = s.
Proof. induction s as [| c s IH]; cbn; [reflexivity | now rewrite IH]. Qed.

Lemma str_app_assoc (a b c : string) : (a ++ b) ++ c = a ++ b ++ c.
Proof. induction a as [| x a IH]; cbn; [reflexivity | now rewrite IH]. Qed.

(** The bytes of a match are dropped, and the search goes on after them. *)
Lemma replace_from_skip (old new a rest : string) :
  replace_from old new (String.length a) (a ++ rest) = replace_from old new 0 rest.
Proof. induction a as [| c a IH]; [reflexivity | exact IH]. Qed.

Lemma replace_at_match (c : ascii) (o new rest : string) :
  replace (String c o) new (String c o ++ rest) = new ++ replace (String c o) new rest.
Proof.
  unfold replace. cbn [append replace_from].
  change (String c (o ++ rest)) with (String c o ++ rest). rewrite prefix_app.
  cbn [String.length]. rewrite Nat.sub_1_r. cbn [Nat.pred].
  now rewrite replace_from_skip.
Qed.

(** Text without the first character of [old] is copied as it is. *)
Lemma replace_before_first (c : ascii) (o new body rest : string) :
  ~ has_char c body ->
  replace (String c o) new (body ++ rest) = body ++ replace (String c o) new rest.
Proof.
  unfold replace. induction body as [| a r IH]; intros Hno; [reflexivity |].
  assert (Hne : c <> a) by (intros ->; apply Hno; left; reflexivity).
  cbn [append replace_from prefix].
  destruct (ascii_dec c a) as [E | _]; [contradiction |].
  f_equal. apply IH. intros H. apply Hno. right. exact H.
Qed.

Lemma is_space_backtick (h : string) : is_space (String "`" h) = false.
Proof. destruct h as [| c1 [| c2 [| c3 h]]]; reflexivity. Qed.

(** A text that begins and ends with a backtick keeps both under
    [strip()]; a newline after it goes. *)
Lemma strip_fenced (core tail inner : string) :
  core = String "`" (inner ++ "`") ->
  tail = EmptyString \/ tail = nl ->
  strip (core ++ tail) = core.
Proof.
  intros Hcore Htail. unfold strip, strip_where.
  assert (Hlast : utf8_chars core = (utf8_chars (String "`" inner) ++ ["`"])%list).
  { rewrite Hcore. change (String "`" (inner ++ "`")) with (String "`" inner ++ "`").
    now rewrite utf8_chars_app. }
  assert (Hfirst : exists h l, utf8_chars core = String "`" h :: l).
  { rewrite Hcore, utf8_chars_unfold.
    destruct (inner ++ "`") as [| c' r']; [now eexists _, _ |].
    destruct (utf8_chars (String c' r')) as [| h t]; [now eexists _, _ |].
    destruct (is_continuation c'); now eexists _, _. }
  destruct Hfirst as (h & l & Hfirst).
  assert (Hchars : utf8_chars (core ++ tail) = (utf8_chars core ++ utf8_chars tail)%list).
  { apply utf8_chars_app. destruct Htail as [-> | ->]; [exact I | reflexivity]. }
  rewrite Hchars.
  assert (Hkeep : drop_while is_space (utf8_chars core ++ utf8_chars tail)%list
                  = (utf8_chars core ++ utf8_chars tail)%list).
  { rewrite Hfirst. cbn [app drop_while]. now rewrite is_space_backtick. }
  rewrite Hkeep, rev_app_distr.
  assert (Hrev : drop_while is_space (rev (utf8_chars tail) ++ rev (utf8_chars core))%list
                 = rev (utf8_chars core)).
  { rewrite Hlast, (rev_app_distr (utf8_chars (String "`" inner))).
    destruct Htail as [-> | ->]; reflexivity. }
  rewrite Hrev, rev_involutive. apply concat_utf8_chars.
Qed.

(** Line 126 on a fenced answer: what goes to [json.loads] is the text
    between the opening [```json] and the closing fence. *)
Lemma strip_code_fence_fenced (body tail : string) :
  ~ has_char "`" body ->
  tail = EmptyString \/ tail = nl ->
  strip_code_fence ("```json" ++ body ++ "```" ++ tail) = body.
Proof.
  intros Hno Htail. unfold strip_code_fence.
  assert (Hcore : "```json" ++ body ++ "```"
                  = String "`" (("``json" ++ body ++ "``") ++ "`")).
  { cbn [append]. rewrite !str_app_assoc. reflexivity. }
  rewrite <- (str_app_assoc body "```" tail),
          <- (str_app_assoc "```json" (body ++ "```") tail).
  rewrite (strip_fenced _ tail _ Hcore Htail).
  rewrite (replace_at_match "`" "``json" EmptyString (body ++ "```")).
  cbn [append].
  rewrite (replace_before_first "`" "``json" EmptyString body "```" Hno).
  change (replace "```json" EmptyString "```") with "```".
  rewrite (replace_before_first "`" "``" EmptyString body "```" Hno).
  change (replace "```" EmptyString "```") with EmptyString.
  apply str_app_nil_r.
Qed.

(** C8: the judge decodes the response text with surrounding whitespace
    and the code-fence markers removed: of an answer inside a [```json] fence,
    a newline after it or none, the text between the markers is decoded.
    When the AI call raises, or decoding raises, the verdict is the dict with
    decision "error" and the justification "Gemini API error: " followed by
    the error's message; its decision is not "approved", and a run that
    reached the judge ends with the dict of status "not accepted" and that
    justification as the reason, not with an exception. *)
Theorem judge_failure_is_error_verdict (w : env) (cd : pyval) (role : string)
    (evidence : pyval) (evidence_type prompt : string) :
  verify_prompt w cd evidence evidence_type = Ok prompt ->
  (forall text verdict,
     generate_content w prompt = Ok text ->
     json_loads w (replace "```" EmptyString (replace "```json" EmptyString (strip text)))
     = Ok verdict ->
     result (_verify_proof_with_role w cd evidence evidence_type role) = Ok verdict) /\
  (forall body tail,
     ~ has_char "`" body ->
     tail = EmptyString \/ tail = nl ->
     generate_content w prompt = Ok ("```json" ++ body ++ "```" ++ tail) ->
     result (_verify_proof_with_role w cd evidence evidence_type role)
     = match json_loads w body with
       | Ok verdict => Ok verdict
       | Raise e =>
           Ok (VDict [("decision", VStr "error");
                      ("justification", VStr ("Gemini API error: " ++ exn_str e))])
       end) /\
  (forall e, judge_fails w prompt e ->
     result (_verify_proof_with_role w cd evidence evidence_type role)
     = Ok (VDict [("decision", VStr "error");
                  ("justification", VStr ("Gemini API error: " ++ exn_str e))])
     /\ (forall verdict, Py.get verdict "decision" VNone = Ok (VStr "approved") ->
           result (_verify_proof_with_role w cd evidence evidence_type role) <> Ok verdict)
     /\ (reaches_judge w cd role evidence evidence_type ->
         result (get_ai_dispute_verdict w cd)
         = Ok (VDict [("status", VStr "not accepted");
                      ("reason", VStr ("Gemini API error: " ++ exn_str e))]))).
Proof.
  intros Hprompt.
  assert (Hfail : forall e, judge_fails w prompt e ->
            result (_verify_proof_with_role w cd evidence evidence_type role)
            = Ok (error_verdict e)).
  { intros e Hf. rewrite verify_result, Hprompt.
    destruct Hf as [-> | (text & -> & ->)]; reflexivity. }
  split; [| split].
  - intros text verdict Htext Hdecode. rewrite verify_result, Hprompt, Htext.
    unfold strip_code_fence. now rewrite Hdecode.
  - intros body tail Hno Htail Htext.
    rewrite verify_result, Hprompt, Htext, (strip_code_fence_fenced body tail Hno Htail).
    destruct (json_loads w body); reflexivity.
  - intros e Hf. split; [exact (Hfail e Hf) |]. split.
    { intros verdict Hdecision. rewrite (Hfail e Hf). intros [= <-]. discriminate Hdecision. }
    intros (proof_url & Hreach & Hgather & Htruthy).
    destruct (verdict_from_provider w cd role proof_url Hreach) as [-> _].
    rewrite Hgather. cbn [fst snd]. rewrite Htruthy, (Hfail e Hf). reflexivity.
Qed.

Lemma judge_failure_is_error_verdict_witness :
  result (_verify_proof_with_role Scenario.all_up
            (Scenario.contract [VStr "https://github.com/acme/widgets"])
            (VList [VStr "index.html"; VStr "style.css"])
            "List of Files from GitHub" "Web Developer")
  = Ok (VDict [("decision", VStr "approved");
               ("justification", VStr "Matches described landing page work.")])
  /\ result (get_ai_dispute_verdict Scenario.ai_fenced_prose
               (Scenario.contract [VStr "https://github.com/acme/widgets"]))
     = Ok (VDict [("status", VStr "not accepted");
                  ("reason",
                   VStr "Gemini API error: Expecting value: line 1 column 1 (char 0)")]).
Proof.
  pose (cd := Scenario.contract [VStr "https://github.com/acme/widgets"]).
  pose (evidence := VList [VStr "index.html"; VStr "style.css"]).
  pose (prompt := verify_template "Build a landing page" "design mockup"
                    "List of Files from GitHub" "['index.html', 'style.css']").
  split.
  - assert (Hprompt : verify_prompt Scenario.all_up cd evidence "List of Files from GitHub"
                      = Ok prompt) by (vm_compute; reflexivity).
    refine (eq_trans
              (proj1 (proj2 (judge_failure_is_error_verdict Scenario.all_up cd
                               "Web Developer" evidence "List of Files from GitHub"
                               prompt Hprompt))
                 (nl ++ Scenario.approved_json ++ nl) EmptyString _ (or_introl eq_refl) _) _).
    + intros H. vm_compute in H.
      repeat (destruct H as [H | H]; [discriminate H |]). exact H.
    + vm_compute. reflexivity.
    + vm_compute. reflexivity.
  - assert (Hprompt : verify_prompt Scenario.ai_fenced_prose cd evidence
                        "List of Files from GitHub" = Ok prompt)
      by (vm_compute; reflexivity).
    refine (proj2 (proj2 (proj2 (proj2 (judge_failure_is_error_verdict
              Scenario.ai_fenced_prose cd "Web Developer" evidence
              "List of Files from GitHub" prompt Hprompt))
              Scenario.decode_error _)) _).
    + right. exists ("```json" ++ nl ++ "approved, the files look right" ++ nl ++ "```" ++ nl).
      split; vm_compute; reflexivity.
    + exists (VStr "https://github.com/acme/widgets"). split; [| split].
      * exists (VList [VStr "https://github.com/acme/widgets"]).
        repeat split; try (vm_compute; reflexivity). discriminate.
      * vm_compute. reflexivity.
      * reflexivity.
Defined.

(** ** The providers, case by case *)

Lemma names_of_list_shape (v x : pyval) :
  Py.names_of v = Ok x -> exists names, x = VList names.
Proof.
  unfold Py.names_of, res_bind. destruct (Py.iter v) as [items |]; [| discriminate].
  destruct (Py.map_res (fun item => Py.getitem item "name") items) as [names |];
    [| discriminate].
  intros [= <-]. now exists names.
Qed.

Lemma names_of_named (items names : list pyval) :
  Forall2 named items names -> Py.names_of (VList items) = Ok (VList names).
Proof.
  intros H. unfold Py.names_of, Py.iter, res_bind.
  assert (Hmap : Py.map_res (fun item => Py.getitem item "name") items = Ok names).
  { induction H as [| item name items names (d & -> & Hname) _ IH]; [reflexivity |].
    cbn [Py.map_res Py.getitem res_bind]. now rewrite Hname, IH. }
  now rewrite Hmap.
Qed.

Lemma names_of_nameless (items : list pyval) :
  Exists nameless items -> exists e, Py.names_of (VList items) = Raise e.
Proof.
  intros H. unfold Py.names_of, Py.iter, res_bind.
  assert (Hmap : exists e, Py.map_res (fun item => Py.getitem item "name") items = Raise e).
  { induction H as [item items (e & He) | item items _ (e & IH)].
    - exists e. cbn [Py.map_res res_bind]. now rewrite He.
    - cbn [Py.map_res res_bind]. destruct (Py.getitem item "name") as [name | e'].
      + exists e. now rewrite IH.
      + now exists e'. }
  destruct Hmap as (e & ->). now exists e.
Qed.



(** X2: a repository link that can be printed (no lone surrogate) and
    does not hold two segments (no "/" left once its outer slashes are
    stripped), or a link that is not a string, gives [None] without any
    request being sent. *)
Theorem github_no_request_without_owner_and_repo (w : env) :
  (forall url, encodable url = true -> ~ has_char "/" (strip_chars "/" url) ->
     get_github_repo_contents w (VStr url) = (Ok VNone, [Enter Fn_get_github_repo_contents])) /\
  (forall u, (forall url, u <> VStr url) ->
     get_github_repo_contents w u = (Ok VNone, [Enter Fn_get_github_repo_contents])).
Proof.
  split.
  - intros url Henc Hfree.
    assert (Hparse : exists e, parse_owner_repo url = Raise e).
    { unfold parse_owner_repo. rewrite (split_free _ _ Hfree). eexists. reflexivity. }
    destruct Hparse as (e & Hparse).
    unfold get_github_repo_contents, is_Exception, bind, tell, lift, try_except, Py.as_str,
      print_link.
    now rewrite Henc, Hparse.
  - intros u Hu. destruct u; try reflexivity. now elim (Hu s).
Qed.

Lemma github_no_request_without_owner_and_repo_witness :
  get_github_repo_contents Scenario.all_up (VStr "github.com")
  = (Ok VNone, [Enter Fn_get_github_repo_contents]).
Proof.
  apply (proj1 (github_no_request_without_owner_and_repo Scenario.all_up)).
  - vm_compute. reflexivity.
  - unfold has_char. vm_compute. intuition discriminate.
Defined.



Lemma index_from_end_In (l : list string) (n : nat) (x : string) :
  Py.index_from_end l n = Ok x -> In x l.
Proof.
  unfold Py.index_from_end. destruct (nth_error (rev l) (n - 1)) eqn:E; [| discriminate].
  intros [= <-]. apply in_rev. exact (nth_error_In _ _ E).
Qed.

(** X4: the owner and the repository name parsed from a link never hold
    a "/", so the address of the contents request, cut at "/", is [https:],
    the empty string, [api.github.com], [repos], the owner, the repository
    name, [contents] and the empty string; for a link without lone surrogate
    that address is the one request sent.  Nothing but a final [.git] is cut
    from the repository name: a "?" or "#" and what follows stay in it. *)
Theorem parse_owner_repo_segments (url owner repo : string) :
  parse_owner_repo url = Ok (owner, repo) ->
  ~ has_char "/" owner /\ ~ has_char "/" repo /\
  split "/" ("https://api.github.com/repos/" ++ owner ++ "/" ++ repo ++ "/contents/")
  = ["https:"; EmptyString; "api.github.com"; "repos"; owner; repo; "contents"; EmptyString]
  /\
  (forall w, encodable url = true ->
     calls (get_github_repo_contents w (VStr url))
     = [Enter Fn_get_github_repo_contents;
        RequestsGet (VStr ("https://api.github.com/repos/" ++ owner ++ "/" ++ repo
                           ++ "/contents/"))]).
Proof.
  intros Hparse.
  assert (Hfree : ~ has_char "/" owner /\ ~ has_char "/" repo).
  { revert Hparse. unfold parse_owner_repo, res_bind.
    destruct (Py.index_from_end (split "/" (strip_chars "/" url)) 2) as [o |] eqn:Ho;
      [| discriminate].
    destruct (Py.index_from_end (split "/" (strip_chars "/" url)) 1) as [r |] eqn:Hr;
      [| discriminate].
    intros [= <- <-].
    pose proof (split_segments_free _ _ _ (index_from_end_In _ _ _ Ho)) as Howner.
    pose proof (split_segments_free _ _ _ (index_from_end_In _ _ _ Hr)) as Hrepo.
    split; [exact Howner |].
    destruct (endswith ".git" r) eqn:E; [| exact Hrepo].
    apply endswith_spec in E. destruct E as [stem ->]. rewrite drop_last_git.
    intros H. apply Hrepo. apply has_char_app. now left. }
  destruct Hfree as [Howner Hrepo]. split; [exact Howner |]. split; [exact Hrepo |]. split.
  - change ("https://api.github.com/repos/" ++ owner ++ "/" ++ repo ++ "/contents/")
      with ("https://api.github.com/repos"
            ++ String "/" (owner ++ String "/" (repo ++ String "/" "contents/"))).
    rewrite !split_app, (split_free _ _ Howner), (split_free _ _ Hrepo). reflexivity.
  - intros w Henc.
    unfold get_github_repo_contents, call_requests_get, is_Exception.
    cbn [print_link Py.as_str]. rewrite Henc. run. rewrite Hparse. run. cbn [fst snd].
    branch; reflexivity.
Qed.

Lemma parse_owner_repo_segments_witness :
  split "/" "https://api.github.com/repos/acme/widgets.git?ref=main/contents/"
  = ["https:"; EmptyString; "api.github.com"; "repos"; "acme"; "widgets.git?ref=main";
     "contents"; EmptyString].
Proof.
  refine (proj1 (proj2 (proj2 (parse_owner_repo_segments
            "https://github.com/acme/widgets.git?ref=main" "acme" "widgets.git?ref=main" _)))).
  vm_compute. reflexivity.
Defined.

Lemma drop_while_strip_last {A} (p : A -> bool) (l : list A) (x : A) :
  p x = true ->
  drop_while p (rev (drop_while p (l ++ [x]))) = drop_while p (rev (drop_while p l)).
Proof.
  intros Hx. induction l as [| a l IH].
  - cbn. now rewrite Hx.
  - cbn [app drop_while]. destruct (p a); [exact IH |].
    change (a :: l ++ [x])%list with ((a :: l) ++ [x])%list.
    rewrite rev_app_distr. cbn [rev app drop_while]. now rewrite Hx.
Qed.

Lemma strip_chars_trailing_slash (url : string) :
  strip_chars "/" (url ++ "/") = strip_chars "/" url.
Proof.
  unfold strip_chars, strip_where. rewrite utf8_chars_app by reflexivity.
  change (utf8_chars "/") with ["/"].
  now rewrite drop_while_strip_last by reflexivity.
Qed.

(** X5: a slash added at the end of a repository link changes nothing:
    the same owner and repository are parsed and the provider runs the same. *)
Theorem github_trailing_slash_ignored (w : env) (url : string) :
  parse_owner_repo (url ++ "/") = parse_owner_repo url /\
  get_github_repo_contents w (VStr (url ++ "/")) = get_github_repo_contents w (VStr url).
Proof.
  assert (H : parse_owner_repo (url ++ "/") = parse_owner_repo url)
    by (unfold parse_owner_repo; now rewrite strip_chars_trailing_slash).
  split; [exact H |].
  assert (Hprint : print_link (VStr (url ++ "/")) = print_link (VStr url)).
  { cbn [print_link]. unfold encodable. rewrite utf8_chars_app by reflexivity.
    rewrite forallb_app. change (forallb _ (utf8_chars "/")) with true.
    now rewrite andb_true_r. }
  unfold get_github_repo_contents. rewrite Hprint. cbn [Py.as_str].
  rewrite !bind_lift_Ok. now rewrite H.
Qed.

(** ** The folder provider *)

Lemma last_segment (base x : string) :
  ~ has_char "/" x -> Py.index_from_end (split "/" (base ++ String "/" x)) 1 = Ok x.
Proof.
  intros H. now rewrite split_app, (split_free _ _ H), index_from_end_last.
Qed.

Lemma drive_calls_of_folder_id (w : env) (url segment id : string) :
  encodable url = true ->
  Py.index_from_end (split "/" url) 1 = Ok segment ->
  Py.index0 (split "?" segment) = Ok id ->
  calls (get_google_drive_folder_contents w (VStr url))
  = [Enter Fn_get_google_drive_folder_contents; DriveList ("'" ++ id ++ "' in parents")].
Proof.
  intros Henc Hsegment Hid.
  unfold get_google_drive_folder_contents, call_drive_files_list, is_Exception.
  cbn [print_link]. rewrite Henc. run.
  cbn [Py.as_str]. run. rewrite Hsegment. run. rewrite Hid. run.
  branch; reflexivity.
Qed.



(** X7: when the folder provider has sent the query [q] and the Drive API
    answers with an object, the listing is read from its "files": no such key
    gives the empty list (not [None]); a list of objects with a "name" gives
    the names in order; a list with an entry without name gives [None]. *)
Theorem drive_listing_from_files (w : env) (u : pyval) (q : string)
    (d : list (string * pyval)) :
  calls (get_google_drive_folder_contents w u)
  = [Enter Fn_get_google_drive_folder_contents; DriveList q] ->
  drive_files_list w q = Ok (VDict d) ->
  (Py.lookup "files" d = None ->
     result (get_google_drive_folder_contents w u) = Ok (VList [])) /\
  (forall items names, Py.lookup "files" d = Some (VList items) ->
     Forall2 named items names ->
     result (get_google_drive_folder_contents w u) = Ok (VList names)) /\
  (forall items, Py.lookup "files" d = Some (VList items) ->
     Exists nameless items ->
     result (get_google_drive_folder_contents w u) = Ok VNone).
Proof.
  intros Hcalls Hlist.
  assert (Hrun : result (get_google_drive_folder_contents w u) =
                 match Py.names_of (match Py.lookup "files" d with
                                    | Some x => x | None => VList [] end) with
                 | Ok x => Ok x
                 | Raise _ => Ok VNone
                 end).
  { revert Hcalls.
    unfold get_google_drive_folder_contents, call_drive_files_list, is_Exception. run.
    destruct (print_link u) as [[] |]; run; [| discriminate].
    destruct (Py.as_str u) as [url |]; run; [| discriminate].
    destruct (Py.index_from_end (split "/" url) 1) as [segment |]; run; [| discriminate].
    destruct (Py.index0 (split "?" segment)) as [folder_id |]; run; [| discriminate].
    destruct (drive_files_list w ("'" ++ folder_id ++ "' in parents")) as [results | e] eqn:E;
      run.
    - destruct (Py.get results "files" (VList [])) as [files |] eqn:F; run.
      + destruct (Py.names_of files) eqn:N; run; intros [= <-];
          pose proof (eq_trans (eq_sym E) Hlist) as R; injection R as ->;
          cbn [Py.get] in F; injection F as <-; now rewrite N.
      + intros [= <-]. pose proof (eq_trans (eq_sym E) Hlist) as R. injection R as ->.
        discriminate F.
    - intros [= <-]. pose proof (eq_trans (eq_sym E) Hlist) as R. discriminate R. }
  rewrite Hrun. repeat split.
  - now intros ->.
  - intros items names -> Hnamed. now rewrite (names_of_named _ _ Hnamed).
  - intros items -> Hnameless. destruct (names_of_nameless _ Hnameless) as (e & ->).
    reflexivity.
Qed.

Lemma drive_listing_from_files_witness :
  result (get_google_drive_folder_contents Scenario.all_up
            (VStr "https://drive.google.com/drive/folders/1AbC?usp=sharing"))
  = Ok (VList [VStr "mockup.fig"]).
Proof.
  refine (proj1 (proj2 (drive_listing_from_files Scenario.all_up
            (VStr "https://drive.google.com/drive/folders/1AbC?usp=sharing")
            "'1AbC' in parents" [("files", VList [VDict [("name", VStr "mockup.fig")]])]
            _ eq_refl)) [VDict [("name", VStr "mockup.fig")]] [VStr "mockup.fig"] eq_refl _).
  - vm_compute. reflexivity.
  - repeat constructor. eexists; split; reflexivity.
Defined.

(** ** The scraper *)



(** ** The run of the orchestrator, case by case *)

Lemma run_eq {A} (m : M A) (r : res A) (t : list event) :
  result m = r -> calls m = t -> m = (r, t).
Proof. destruct m. unfold result, calls. cbn. now intros -> ->. Qed.

Lemma classify_request_dict (w : env) (cd : pyval) (request : string) :
  classify_request w cd = Ok request -> exists d, cd = VDict d.
Proof.
  destruct cd; try discriminate. intros _. now eexists.
Qed.

(** The ways a run can go up to the first link. *)
Lemma verdict_cases (w : env) (cd : pyval) :
  (result (_classify_freelancer_role w cd) = Ok "Unknown" /\
   get_ai_dispute_verdict w cd =
   (Ok (outcome "not accepted" (VStr "Could not determine freelancer role from contract.")),
    Enter Fn_get_ai_dispute_verdict :: calls (_classify_freelancer_role w cd)))
  \/
  exists role d links,
    cd = VDict d /\
    result (_classify_freelancer_role w cd) = Ok role /\ role <> "Unknown" /\
    Py.get cd "links" (VList []) = Ok links /\
    ((Py.truthy links = false /\
      get_ai_dispute_verdict w cd =
      (Ok (outcome "not accepted" (VStr "No proof links were provided.")),
       Enter Fn_get_ai_dispute_verdict :: calls (_classify_freelancer_role w cd)))
     \/
     (Py.truthy links = true /\
      exists e, Py.getitem0 links = Raise e /\
                get_ai_dispute_verdict w cd =
                (Raise e, Enter Fn_get_ai_dispute_verdict
                          :: calls (_classify_freelancer_role w cd)))
     \/
     (exists proof_url, reaches_provider w cd role proof_url)).
Proof.
  pose proof (classify_result w cd) as Hrole.
  set (role := match classify_request w cd with
               | Ok request => match generate_content w request with
                               | Ok text => clean_role text
                               | Raise _ => "Unknown"
                               end
               | Raise _ => "Unknown"
               end) in Hrole.
  destruct (String.eqb role "Unknown") eqn:E.
  - left. apply String.eqb_eq in E. rewrite E in Hrole.
    split; [exact Hrole | exact (verdict_when_role_unknown w cd Hrole)].
  - right. pose proof E as Hknown. apply String.eqb_neq in Hknown.
    destruct (classify_known_request w cd role Hrole Hknown) as [request Hrequest].
    destruct (classify_request_dict w cd request Hrequest) as [d ->].
    exists role, d, (match Py.lookup "links" d with Some x => x | None => VList [] end).
    repeat split; try assumption.
    set (links := match Py.lookup "links" d with Some x => x | None => VList [] end).
    destruct (Py.truthy links) eqn:T.
    + destruct (Py.getitem0 links) as [proof_url | e] eqn:G.
      * right. right. exists proof_url, links. repeat split; assumption.
      * right. left. split; [reflexivity |]. exists e. split; [reflexivity |].
        apply run_eq; unfold get_ai_dispute_verdict; run; rewrite Hrole; run;
          rewrite E; run; cbn [Py.get]; fold links; run; rewrite T;
          cbv beta iota delta [negb]; run; rewrite G; run; reflexivity.
    + left. split; [reflexivity |].
      apply run_eq; unfold get_ai_dispute_verdict; run; rewrite Hrole; run;
        rewrite E; run; cbn [Py.get]; fold links; run; rewrite T;
        cbv beta iota delta [negb]; run; reflexivity.
Qed.

Lemma verdict_outcome_shape (verdict v : pyval) :
  verdict_outcome verdict = Ok v ->
  exists status reason, v = outcome status reason /\
                        (status = "accepted" \/ status = "not accepted").
Proof.
  unfold verdict_outcome, res_bind.
  destruct (Py.get verdict "decision" VNone) as [decision |]; [| discriminate].
  destruct (Py.get verdict "justification" VNone) as [justification |]; [| discriminate].
  destruct (Py.eq_str decision "approved"); intros [= <-]; eexists _, _; split;
    try reflexivity; [now left | now right].
Qed.

Lemma verdict_shape (w : env) (cd v : pyval) :
  result (get_ai_dispute_verdict w cd) = Ok v ->
  exists status reason, v = outcome status reason /\
                        (status = "accepted" \/ status = "not accepted").
Proof.
  destruct (verdict_cases w cd) as [[_ ->] | (role & d & links & -> & _ & _ & _ & H)].
  - intros [= <-]. eexists _, _. split; [reflexivity | now right].
  - destruct H as [[_ ->] | [(_ & e & _ & ->) | (proof_url & Hreach)]].
    + intros [= <-]. eexists _, _. split; [reflexivity | now right].
    + discriminate.
    + destruct (verdict_from_provider w (VDict d) role proof_url Hreach) as [-> _].
      destruct (result (gather_evidence w proof_url)) as [gathered |]; [| discriminate].
      destruct (Py.truthy (fst gathered)).
      * destruct (result (_verify_proof_with_role w (VDict d) (fst gathered)
                            (snd gathered) role)) as [verdict |]; [| discriminate].
        apply verdict_outcome_shape.
      * intros [= <-]. eexists _, _. split; [reflexivity | now right].
Qed.

(** X9: when the pipeline returns, it returns the dict of a "status" and
    a "reason", in this order and nothing else, and the status is "accepted"
    or "not accepted". *)
Theorem verdict_is_status_and_reason (w : env) (cd v : pyval) :
  result (get_ai_dispute_verdict w cd) = Ok v ->
  exists status reason,
    v = VDict [("status", VStr status); ("reason", reason)] /\
    (status = "accepted" \/ status = "not accepted").
Proof. exact (verdict_shape w cd v). Qed.

Lemma verdict_is_status_and_reason_witness :
  exists status reason,
    VDict [("status", VStr "accepted");
           ("reason", VStr "Matches described landing page work.")]
    = VDict [("status", VStr status); ("reason", reason)] /\
    (status = "accepted" \/ status = "not accepted").
Proof.
  apply (verdict_is_status_and_reason Scenario.all_up
           (Scenario.contract [VStr "https://github.com/acme/widgets"])).
  vm_compute. reflexivity.
Defined.

(** ** The endpoint, whatever the request *)

(** X10: the endpoint never raises.  Its answer is one of three: the
    missing-contract answer with 400, when the body's "contractData" is falsy;
    the fixed internal-error answer with 500 (no text of the exception in it),
    when reading the body, reading "contractData" from it, or the pipeline run
    on that contractData raises; or, with 200 and ok true, the status and
    reason of the dict the pipeline returned for the request's contractData,
    the status being "accepted" or "not accepted". *)
Theorem endpoint_always_answers (w : env) (request_json : res pyval) :
  exists answer,
    result (handle_dispute w request_json) = Ok answer /\
    ((answer = missing_contract_answer /\
      exists body cd,
        request_json = Ok body /\ Py.get body "contractData" VNone = Ok cd /\
        Py.truthy cd = false)
     \/
     (answer = internal_error_answer /\
      ((exists e, request_json = Raise e) \/
       (exists body e, request_json = Ok body /\
                       Py.get body "contractData" VNone = Raise e) \/
       (exists body cd e,
          request_json = Ok body /\ Py.get body "contractData" VNone = Ok cd /\
          Py.truthy cd = true /\ result (get_ai_dispute_verdict w cd) = Raise e)))
     \/
     exists body cd status reason,
       request_json = Ok body /\ Py.get body "contractData" VNone = Ok cd /\
       Py.truthy cd = true /\
       result (get_ai_dispute_verdict w cd)
       = Ok (VDict [("status", VStr status); ("reason", reason)]) /\
       answer = (VDict [("ok", VBool true); ("status", VStr status); ("reason", reason)],
                 200%Z) /\
       (status = "accepted" \/ status = "not accepted")).
Proof.
  unfold handle_dispute, is_Exception. run.
  destruct request_json as [body | e]; run.
  2: { eexists; split; [reflexivity |]. right; left. split; [reflexivity |].
       left. now exists e. }
  destruct (Py.get body "contractData" VNone) as [cd | e] eqn:Hcd; run.
  2: { eexists; split; [reflexivity |]. right; left. split; [reflexivity |].
       right; left. now exists body, e. }
  destruct (Py.truthy cd) eqn:T; cbv beta iota delta [negb]; run.
  2: { eexists; split; [reflexivity |]. left. split; [reflexivity |]. now exists body, cd. }
  destruct (result (get_ai_dispute_verdict w cd)) as [v | e] eqn:R; run.
  2: { eexists; split; [reflexivity |]. right; left. split; [reflexivity |].
       right; right. now exists body, cd, e. }
  destruct (verdict_shape w cd v R) as (status & reason & -> & Hstatus).
  cbn [Py.get outcome Py.lookup String.eqb Ascii.eqb Bool.eqb]. run.
  eexists. split; [reflexivity |]. right. right. exists body, cd, status, reason.
  repeat split; try assumption.
Qed.

(** X11: every falsy contractData is refused like a missing one: null,
    false, 0, 0.0, the empty string, the empty list and the empty object all
    get the 400 answer, and the pipeline is not entered. *)
Theorem falsy_contract_data_rejected (w : env) (body cd : pyval) :
  Py.get body "contractData" VNone = Ok cd ->
  Py.truthy cd = false ->
  handle_dispute w (Ok body) = (Ok missing_contract_answer, [Enter Fn_handle_dispute]).
Proof.
  intros Hget Hfalsy.
  apply run_eq; unfold handle_dispute; run; rewrite Hget; run; rewrite Hfalsy;
    cbv beta iota delta [negb]; run; reflexivity.
Qed.

Lemma falsy_contract_data_rejected_witness :
  handle_dispute Scenario.all_up (Ok (Scenario.body (VInt 0)))
  = (Ok missing_contract_answer, [Enter Fn_handle_dispute]).
Proof.
  apply (falsy_contract_data_rejected Scenario.all_up (Scenario.body (VInt 0)) (VInt 0));
    reflexivity.
Defined.

(** X12: a contractData that is truthy and not an object (a string, a
    number, a list, true) is not refused: the classifier fails on it without
    calling the model, and the endpoint answers 200 with ok true, "not
    accepted" and the reason about the role.  No outbound call is made. *)
Theorem non_object_contract_data_is_role_failure (w : env) (body cd : pyval) :
  Py.get body "contractData" VNone = Ok cd ->
  Py.truthy cd = true ->
  (forall d, cd <> VDict d) ->
  handle_dispute w (Ok body)
  = (Ok (verdict_answer "not accepted"
           (VStr "Could not determine freelancer role from contract.")),
     [Enter Fn_handle_dispute; Enter Fn_get_ai_dispute_verdict;
      Enter Fn_classify_freelancer_role]).
Proof.
  intros Hget Htruthy Hnot.
  assert (Hrequest : exists e, classify_request w cd = Raise e).
  { destruct cd; try (eexists; reflexivity). now elim (Hnot d). }
  destruct Hrequest as (e & Hrequest).
  assert (Hrole : result (_classify_freelancer_role w cd) = Ok "Unknown")
    by (now rewrite classify_result, Hrequest).
  assert (Hcalls : calls (_classify_freelancer_role w cd) = [Enter Fn_classify_freelancer_role])
    by (now rewrite classify_calls, Hrequest).
  pose proof (verdict_when_role_unknown w cd Hrole) as Hrun. rewrite Hcalls in Hrun.
  apply run_eq; unfold handle_dispute; run; rewrite Hget; run; rewrite Htruthy;
    cbv beta iota delta [negb]; run; rewrite Hrun; unfold result, calls; cbn [fst snd];
    reflexivity.
Qed.

Lemma non_object_contract_data_is_role_failure_witness :
  result (handle_dispute Scenario.all_up (Ok (Scenario.body (VStr "see attachment"))))
  = Ok (verdict_answer "not accepted"
          (VStr "Could not determine freelancer role from contract.")).
Proof.
  rewrite (non_object_contract_data_is_role_failure Scenario.all_up
             (Scenario.body (VStr "see attachment")) (VStr "see attachment")
             eq_refl eq_refl); [reflexivity | discriminate].
Defined.

(** ** The judge inside the pipeline *)

Lemma judge_result_in_pipeline (w : env) (cd : pyval) (role : string)
    (evidence : pyval) (evidence_type : string) :
  reaches_judge w cd role evidence evidence_type ->
  exists prompt,
    verify_prompt w cd evidence evidence_type = Ok prompt /\
    result (_verify_proof_with_role w cd evidence evidence_type role) =
    Ok match generate_content w prompt with
       | Raise e => error_verdict e
       | Ok text => match json_loads w (strip_code_fence text) with
                    | Ok verdict => verdict
                    | Raise e => error_verdict e
                    end
       end.
Proof.
  intros Hreach. destruct (reaches_judge_prompt w cd role evidence evidence_type Hreach)
    as [prompt Hprompt].
  exists prompt. split; [exact Hprompt |]. rewrite verify_result, Hprompt.
  destruct (generate_content w prompt) as [text |]; [| reflexivity].
  destruct (json_loads w (strip_code_fence text)); reflexivity.
Qed.

(** X13: the judge builds its prompt outside its [try], yet in a run of
    the pipeline it never raises: a run that reaches the judge has a contract
    the prompt can be built from, so the judge always hands back a verdict
    (the model's, or the error verdict). *)
Theorem judge_never_raises_in_pipeline (w : env) (cd : pyval) (role : string)
    (evidence : pyval) (evidence_type : string) :
  reaches_judge w cd role evidence evidence_type ->
  exists verdict,
    result (_verify_proof_with_role w cd evidence evidence_type role) = Ok verdict.
Proof.
  intros Hreach.
  destruct (judge_result_in_pipeline w cd role evidence evidence_type Hreach)
    as (prompt & _ & ->).
  eexists; reflexivity.
Qed.

Lemma judge_never_raises_in_pipeline_witness :
  exists verdict,
    result (_verify_proof_with_role Scenario.judge_down
              (Scenario.contract [VStr "https://github.com/acme/widgets"])
              (VList [VStr "index.html"; VStr "style.css"]) "List of Files from GitHub"
              "Web Developer") = Ok verdict.
Proof.
  apply (judge_never_raises_in_pipeline Scenario.judge_down).
  exists (VStr "https://github.com/acme/widgets"). split; [| split].
  - exists (VList [VStr "https://github.com/acme/widgets"]).
    repeat split; try (vm_compute; reflexivity). discriminate.
  - vm_compute. reflexivity.
  - reflexivity.
Defined.

Lemma verdict_outcome_accepted (verdict reason : pyval) :
  verdict_outcome verdict = Ok (outcome "accepted" reason) ->
  Py.get verdict "decision" VNone = Ok (VStr "approved") /\
  Py.get verdict "justification" VNone = Ok reason.
Proof.
  unfold verdict_outcome, res_bind.
  destruct (Py.get verdict "decision" VNone) as [decision |]; [| discriminate].
  destruct (Py.get verdict "justification" VNone) as [justification |]; [| discriminate].
  destruct (Py.eq_str decision "approved") eqn:E; intros [= <-].
  apply eq_str_spec in E. now subst.
Qed.

(** X14: the pipeline says "accepted" only after approval by the model:
    the run then reached the judge with evidence that is not empty, the
    inference service answered the judge's prompt, the answer decoded to a
    verdict whose decision is "approved", and the reason is that verdict's
    justification. *)
Theorem accepted_only_on_approval (w : env) (cd reason : pyval) :
  result (get_ai_dispute_verdict w cd) = Ok (outcome "accepted" reason) ->
  exists role evidence evidence_type prompt text verdict,
    reaches_judge w cd role evidence evidence_type /\
    verify_prompt w cd evidence evidence_type = Ok prompt /\
    generate_content w prompt = Ok text /\
    json_loads w (strip_code_fence text) = Ok verdict /\
    Py.get verdict "decision" VNone = Ok (VStr "approved") /\
    Py.get verdict "justification" VNone = Ok reason.
Proof.
  destruct (verdict_cases w cd) as [[_ ->] | (role & d & links & -> & _ & _ & _ & H)];
    [discriminate |].
  destruct H as [[_ ->] | [(_ & e & _ & ->) | (proof_url & Hreach)]]; try discriminate.
  destruct (verdict_from_provider w (VDict d) role proof_url Hreach) as [-> _].
  destruct (result (gather_evidence w proof_url)) as [[evidence evidence_type] |] eqn:G;
    [| discriminate].
  cbn [fst snd]. destruct (Py.truthy evidence) eqn:T; [| discriminate].
  assert (Hjudge : reaches_judge w (VDict d) role evidence evidence_type)
    by (exists proof_url; repeat split; assumption).
  destruct (judge_result_in_pipeline w (VDict d) role evidence evidence_type Hjudge)
    as (prompt & Hprompt & ->).
  intros Hout. apply verdict_outcome_accepted in Hout. destruct Hout as [Hdecision Hreason].
  destruct (generate_content w prompt) as [text | e] eqn:Hgen; [| discriminate Hdecision].
  destruct (json_loads w (strip_code_fence text)) as [verdict | e] eqn:Hdecode;
    [| discriminate Hdecision].
  exists role, evidence, evidence_type, prompt, text, verdict. repeat split; assumption.
Qed.

Lemma accepted_only_on_approval_witness :
  exists role evidence evidence_type prompt text verdict,
    reaches_judge Scenario.all_up (Scenario.contract [VStr "https://github.com/acme/widgets"])
      role evidence evidence_type /\
    verify_prompt Scenario.all_up (Scenario.contract [VStr "https://github.com/acme/widgets"])
      evidence evidence_type = Ok prompt /\
    generate_content Scenario.all_up prompt = Ok text /\
    json_loads Scenario.all_up (strip_code_fence text) = Ok verdict /\
    Py.get verdict "decision" VNone = Ok (VStr "approved") /\
    Py.get verdict "justification" VNone = Ok (VStr "Matches described landing page work.").
Proof.
  apply (accepted_only_on_approval Scenario.all_up
           (Scenario.contract [VStr "https://github.com/acme/widgets"])).
  vm_compute. reflexivity.
Defined.



(** ** How many calls a run makes *)

Lemma prompts_sent_app (a b : list event) :
  prompts_sent (a ++ b) = prompts_sent a + prompts_sent b.
Proof. unfold prompts_sent. now rewrite filter_app, length_app. Qed.

Lemma source_requests_app (a b : list event) :
  source_requests (a ++ b) = source_requests a + source_requests b.
Proof. unfold source_requests. now rewrite filter_app, length_app. Qed.

Lemma counts_enter (f : func) (t : list event) :
  prompts_sent (Enter f :: t) = prompts_sent t /\
  source_requests (Enter f :: t) = source_requests t.
Proof. split; reflexivity. Qed.

(** A provider sends one request, or none and then brings no evidence. *)
Lemma github_calls_shape (w : env) (u : pyval) :
  (calls (get_github_repo_contents w u) = [Enter Fn_get_github_repo_contents] /\
   forall v, result (get_github_repo_contents w u) = Ok v -> v = VNone) \/
  exists api, calls (get_github_repo_contents w u)
              = [Enter Fn_get_github_repo_contents; RequestsGet api].
Proof.
  unfold get_github_repo_contents, call_requests_get, is_Exception. run.
  destruct (print_link u); run; [| left; split; [reflexivity | discriminate]].
  destruct (Py.as_str u) as [url |]; run;
    [| left; split; [reflexivity | now intros v [= <-]]].
  destruct (parse_owner_repo url) as [owner_repo |]; run;
    [| left; split; [reflexivity | now intros v [= <-]]].
  right. eexists. branch; reflexivity.
Qed.

Lemma drive_calls_shape (w : env) (u : pyval) :
  (calls (get_google_drive_folder_contents w u) = [Enter Fn_get_google_drive_folder_contents] /\
   forall v, result (get_google_drive_folder_contents w u) = Ok v -> v = VNone) \/
  exists q, calls (get_google_drive_folder_contents w u)
            = [Enter Fn_get_google_drive_folder_contents; DriveList q].
Proof.
  unfold get_google_drive_folder_contents, call_drive_files_list, is_Exception. run.
  destruct (print_link u); run; [| left; split; [reflexivity | discriminate]].
  destruct (Py.as_str u) as [url |]; run;
    [| left; split; [reflexivity | now intros v [= <-]]].
  destruct (Py.index_from_end (split "/" url) 1) as [segment |]; run;
    [| left; split; [reflexivity | now intros v [= <-]]].
  destruct (Py.index0 (split "?" segment)) as [folder_id |]; run;
    [| left; split; [reflexivity | now intros v [= <-]]].
  right. eexists. branch; reflexivity.
Qed.

Lemma scrape_calls_shape (w : env) (u : pyval) :
  (calls (scrape_website_text w u) = [Enter Fn_scrape_website_text] /\
   forall v, result (scrape_website_text w u) = Ok v -> v = VNone) \/
  calls (scrape_website_text w u) = [Enter Fn_scrape_website_text; RequestsGet u].
Proof.
  rewrite scrape_calls, scrape_result.
  destruct (print_link u); [now right | left; split; [reflexivity | discriminate]].
Qed.

(** The calls of the evidence step, past the entry into the provider:
    one request, or none and then no evidence. *)
Lemma gather_evidence_calls_shape (w : env) (u : pyval) :
  (exists f, calls (gather_evidence w u) = [Enter f] \/ calls (gather_evidence w u) = [])
  /\ (forall evidence evidence_type,
        result (gather_evidence w u) = Ok (evidence, evidence_type) ->
        Py.truthy evidence = false)
  \/ exists f r, is_source_request r = true /\ calls (gather_evidence w u) = [Enter f; r].
Proof.
  unfold gather_evidence. run.
  destruct (Py.str_in "github.com" u) as [[|] | e]; run.
  - destruct (github_calls_shape w u) as [[Hc Hnone] | (api & Hc)]; rewrite Hc.
    + left. destruct (result (get_github_repo_contents w u)) as [v | e]; run.
      * split; [eexists; left; reflexivity |].
        intros evidence ety [= <- _]. now rewrite (Hnone v eq_refl).
      * split; [eexists; left; reflexivity | discriminate].
    + right. exists Fn_get_github_repo_contents, (RequestsGet api).
      split; [reflexivity |].
      destruct (result (get_github_repo_contents w u)); run; reflexivity.
  - destruct (Py.str_in "drive.google.com" u) as [[|] | e]; run.
    + destruct (drive_calls_shape w u) as [[Hc Hnone] | (q & Hc)]; rewrite Hc.
      * left. destruct (result (get_google_drive_folder_contents w u)) as [v | e]; run.
        -- split; [eexists; left; reflexivity |].
           intros evidence ety [= <- _]. now rewrite (Hnone v eq_refl).
        -- split; [eexists; left; reflexivity | discriminate].
      * right. exists Fn_get_google_drive_folder_contents, (DriveList q).
        split; [reflexivity |].
        destruct (result (get_google_drive_folder_contents w u)); run; reflexivity.
    + destruct (scrape_calls_shape w u) as [[Hc Hnone] | Hc]; rewrite Hc.
      * left. destruct (result (scrape_website_text w u)) as [v | e]; run.
        -- split; [eexists; left; reflexivity |].
           intros evidence ety [= <- _]. now rewrite (Hnone v eq_refl).
        -- split; [eexists; left; reflexivity | discriminate].
      * right. exists Fn_scrape_website_text, (RequestsGet u).
        split; [reflexivity |].
        destruct (result (scrape_website_text w u)); run; reflexivity.
    + left. split; [exists Fn_handle_dispute; right; reflexivity | discriminate].
  - left. split; [exists Fn_handle_dispute; right; reflexivity | discriminate].
Qed.

(** Gathering evidence sends no prompt and at most one request, and
    evidence that is not empty has cost exactly one request. *)
Lemma gather_evidence_counts (w : env) (u : pyval) :
  prompts_sent (calls (gather_evidence w u)) = 0 /\
  source_requests (calls (gather_evidence w u)) <= 1 /\
  (forall evidence evidence_type,
     result (gather_evidence w u) = Ok (evidence, evidence_type) ->
     Py.truthy evidence = true ->
     source_requests (calls (gather_evidence w u)) = 1).
Proof.
  destruct (gather_evidence_calls_shape w u)
    as [[(f & [Hc | Hc]) Hnone] | (f & r & Hr & Hc)]; rewrite Hc.
  - repeat split; [cbn; lia |]. intros evidence ety R T.
    rewrite (Hnone evidence ety R) in T. discriminate T.
  - repeat split; [cbn; lia |]. intros evidence ety R T.
    rewrite (Hnone evidence ety R) in T. discriminate T.
  - destruct r; try discriminate Hr; repeat split; cbn; lia.
Qed.

Lemma pipeline_counts (w : env) (cd : pyval) :
  let t := calls (get_ai_dispute_verdict w cd) in
  prompts_sent t <= 2 /\ source_requests t <= 1 /\
  (source_requests t = 1 -> 1 <= prompts_sent t) /\
  (prompts_sent t = 2 -> source_requests t = 1).
Proof.
  assert (Hclassify : prompts_sent (calls (_classify_freelancer_role w cd)) <= 1 /\
                      source_requests (calls (_classify_freelancer_role w cd)) = 0).
  { rewrite classify_calls. destruct (classify_request w cd); split; cbn; lia. }
  destruct Hclassify as [Hpc Hsc].
  assert (Hsimple : forall r,
            get_ai_dispute_verdict w cd =
            (r, Enter Fn_get_ai_dispute_verdict :: calls (_classify_freelancer_role w cd)) ->
            let t := calls (get_ai_dispute_verdict w cd) in
            prompts_sent t <= 2 /\ source_requests t <= 1 /\
            (source_requests t = 1 -> 1 <= prompts_sent t) /\
            (prompts_sent t = 2 -> source_requests t = 1)).
  { intros r H.
    assert (Hc : calls (get_ai_dispute_verdict w cd)
                 = Enter Fn_get_ai_dispute_verdict :: calls (_classify_freelancer_role w cd))
      by (rewrite H; reflexivity).
    cbv zeta. rewrite Hc.
    rewrite (proj1 (counts_enter _ _)), (proj2 (counts_enter _ _)). lia. }
  destruct (verdict_cases w cd) as [[_ H] | (role & d & links & -> & Hrole & Hknown & _ & H)];
    [exact (Hsimple _ H) |].
  destruct H as [[_ H] | [(_ & e & _ & H) | (proof_url & Hreach)]];
    [exact (Hsimple _ H) | exact (Hsimple _ H) |].
  destruct (verdict_from_provider w (VDict d) role proof_url Hreach) as [_ Hcalls].
  cbv zeta. rewrite Hcalls.
  rewrite (proj1 (counts_enter _ _)), (proj2 (counts_enter _ _)).
  rewrite !prompts_sent_app, !source_requests_app.
  destruct (classify_known_request w (VDict d) role Hrole Hknown) as [request Hrequest].
  assert (Hpc1 : prompts_sent (calls (_classify_freelancer_role w (VDict d))) = 1)
    by (rewrite classify_calls, Hrequest; reflexivity).
  destruct (gather_evidence_counts w proof_url) as (Hpg & Hsg & Hevidence).
  rewrite Hpc1, Hsc, Hpg.
  set (sg := source_requests (calls (gather_evidence w proof_url))) in *.
  destruct (result (gather_evidence w proof_url)) as [[evidence evidence_type] |] eqn:G;
    [| cbn; lia].
  cbn [fst snd]. destruct (Py.truthy evidence) eqn:T; [| cbn; lia].
  rewrite (Hevidence evidence evidence_type eq_refl T), verify_calls.
  destruct (verify_prompt w (VDict d) evidence evidence_type); cbn; lia.
Qed.

(** ** The outbound calls of a run, in order *)

Lemma outbound_app (a b : list event) : outbound (a ++ b) = (outbound a ++ outbound b)%list.
Proof. apply filter_app. Qed.

Lemma outbound_enter (f : func) (t : list event) : outbound (Enter f :: t) = outbound t.
Proof. reflexivity. Qed.

Lemma outbound_classify (w : env) (cd : pyval) :
  outbound (calls (_classify_freelancer_role w cd)) =
  match classify_request w cd with
  | Ok p => [GenerateContent p]
  | Raise _ => []
  end.
Proof. rewrite classify_calls. destruct (classify_request w cd); reflexivity. Qed.

Lemma pipeline_outbound (w : env) (cd : pyval) :
  outbound (calls (get_ai_dispute_verdict w cd)) = [] \/
  exists p,
    classify_request w cd = Ok p /\
    (outbound (calls (get_ai_dispute_verdict w cd)) = [GenerateContent p] \/
     exists r,
       is_source_request r = true /\
       (outbound (calls (get_ai_dispute_verdict w cd)) = [GenerateContent p; r] \/
        exists evidence evidence_type p',
          verify_prompt w cd evidence evidence_type = Ok p' /\
          outbound (calls (get_ai_dispute_verdict w cd))
          = [GenerateContent p; r; GenerateContent p'])).
Proof.
  assert (Hsimple : forall r,
            get_ai_dispute_verdict w cd =
            (r, Enter Fn_get_ai_dispute_verdict :: calls (_classify_freelancer_role w cd)) ->
            outbound (calls (get_ai_dispute_verdict w cd)) = [] \/
            exists p,
              classify_request w cd = Ok p /\
              (outbound (calls (get_ai_dispute_verdict w cd)) = [GenerateContent p] \/
               exists r,
                 is_source_request r = true /\
                 (outbound (calls (get_ai_dispute_verdict w cd)) = [GenerateContent p; r] \/
                  exists evidence evidence_type p',
                    verify_prompt w cd evidence evidence_type = Ok p' /\
                    outbound (calls (get_ai_dispute_verdict w cd))
                    = [GenerateContent p; r; GenerateContent p']))).
  { intros r H.
    assert (Hc : calls (get_ai_dispute_verdict w cd)
                 = Enter Fn_get_ai_dispute_verdict :: calls (_classify_freelancer_role w cd))
      by (rewrite H; reflexivity).
    rewrite Hc, outbound_enter, outbound_classify.
    destruct (classify_request w cd) as [p |]; [| now left].
    right. exists p. split; [reflexivity | now left]. }
  destruct (verdict_cases w cd) as [[_ H] | (role & d & links & -> & Hrole & Hknown & _ & H)];
    [exact (Hsimple _ H) |].
  destruct H as [[_ H] | [(_ & e & _ & H) | (proof_url & Hreach)]];
    [exact (Hsimple _ H) | exact (Hsimple _ H) |].
  clear Hsimple.
  destruct (verdict_from_provider w (VDict d) role proof_url Hreach) as [_ Hcalls].
  destruct (classify_known_request w (VDict d) role Hrole Hknown) as [request Hrequest].
  rewrite Hcalls, outbound_enter, !outbound_app, outbound_classify, Hrequest.
  right. exists request. split; [reflexivity |].
  destruct (gather_evidence_calls_shape w proof_url)
    as [[(f & Hc) Hnone] | (f & r & Hr & Hc)].
  - left.
    assert (Hout : outbound (calls (gather_evidence w proof_url)) = [])
      by (destruct Hc as [-> | ->]; reflexivity).
    rewrite Hout.
    destruct (result (gather_evidence w proof_url)) as [[evidence evidence_type] |];
      [| reflexivity].
    cbn [fst snd]. now rewrite (Hnone evidence evidence_type eq_refl).
  - right. exists r. split; [exact Hr |].
    assert (Hout : outbound (calls (gather_evidence w proof_url)) = [r]).
    { rewrite Hc. unfold outbound. cbn [filter is_prompt is_source_request orb].
      now rewrite Hr, orb_true_r. }
    rewrite Hout.
    destruct (result (gather_evidence w proof_url)) as [[evidence evidence_type] |];
      [| now left].
    cbn [fst snd]. destruct (Py.truthy evidence); [| now left].
    right. rewrite verify_calls, outbound_enter.
    destruct (verify_prompt_built w (VDict d) evidence evidence_type request Hrequest)
      as [p' Hp'].
    exists evidence, evidence_type, p'. split; [exact Hp' |]. now rewrite Hp'.
Qed.

(** X16: the outbound calls of one request to the endpoint, in the order
    they are made, are one of: none; the classification prompt of the
    request's contractData; that prompt, then one request to a proof source;
    that prompt, one request to a proof source, then the judge's prompt for the
    same contractData.  So a proof source is contacted only after the
    classification prompt, the judge's prompt is sent only after a proof
    source was contacted, nothing is retried, and one request costs at most
    two prompts and at most one request to a proof source. *)
Theorem outbound_calls_bounded (w : env) (request_json : res pyval) :
  let sent := outbound (calls (handle_dispute w request_json)) in
  (sent = [] \/
   exists body cd p,
     request_json = Ok body /\ Py.get body "contractData" VNone = Ok cd /\
     classify_request w cd = Ok p /\
     (sent = [GenerateContent p] \/
      exists r,
        ((exists url, r = RequestsGet url) \/ (exists query, r = DriveList query)) /\
        (sent = [GenerateContent p; r] \/
         exists evidence evidence_type p',
           verify_prompt w cd evidence evidence_type = Ok p' /\
           sent = [GenerateContent p; r; GenerateContent p']))) /\
  prompts_sent (calls (handle_dispute w request_json)) <= 2 /\
  source_requests (calls (handle_dispute w request_json)) <= 1.
Proof.
  assert (Hcalls : calls (handle_dispute w request_json) = [Enter Fn_handle_dispute] \/
                   exists body cd,
                     request_json = Ok body /\ Py.get body "contractData" VNone = Ok cd /\
                     calls (handle_dispute w request_json)
                     = ([Enter Fn_handle_dispute]
                        ++ calls (get_ai_dispute_verdict w cd))%list).
  { unfold handle_dispute, is_Exception. run.
    destruct request_json as [body |]; run; [| now left].
    destruct (Py.get body "contractData" VNone) as [cd |] eqn:Hcd; run; [| now left].
    destruct (Py.truthy cd); cbv beta iota delta [negb]; run; [| now left].
    right. exists body, cd. split; [reflexivity |]. split; [exact Hcd |].
    destruct (result (get_ai_dispute_verdict w cd)) as [v |]; run; [| reflexivity].
    destruct (Py.get v "status" VNone); run; [| reflexivity].
    destruct (Py.get v "reason" VNone); run; reflexivity. }
  cbv zeta. destruct Hcalls as [-> | (body & cd & Hbody & Hcd & ->)];
    [split; [now left | cbn; lia] |].
  cbn [app]. rewrite outbound_enter.
  rewrite (proj1 (counts_enter _ _)), (proj2 (counts_enter _ _)).
  split; [| pose proof (pipeline_counts w cd) as Hcount; cbv zeta in Hcount; lia].
  destruct (pipeline_outbound w cd) as [H | (p & Hp & H)]; [now left |].
  right. exists body, cd, p. repeat split; try assumption.
  destruct H as [H | (r & Hr & H)]; [now left |].
  right. exists r. split; [| exact H].
  destruct r; try discriminate Hr; [left | right]; eexists; reflexivity.
Qed.

(** ** Only the first link counts *)

Lemma lookup_app_binding (k key : string) (v : pyval) (pre post : list (string * pyval)) :
  Py.lookup k (pre ++ (key, v) :: post) =
  match Py.lookup k pre with
  | Some x => Some x
  | None => if String.eqb k key then Some v else Py.lookup k post
  end.
Proof.
  induction pre as [| [k' v'] pre IH]; [reflexivity |].
  cbn [app Py.lookup]. destruct (String.eqb k k'); [reflexivity | exact IH].
Qed.

(** Two contracts on which the classifier, the links and the judge agree
    run the same. *)
Lemma verdict_congruence (w : env) (cd cd' links links' : pyval) :
  _classify_freelancer_role w cd = _classify_freelancer_role w cd' ->
  Py.get cd "links" (VList []) = Ok links ->
  Py.get cd' "links" (VList []) = Ok links' ->
  Py.truthy links = Py.truthy links' ->
  Py.getitem0 links = Py.getitem0 links' ->
  (forall evidence evidence_type role,
     _verify_proof_with_role w cd evidence evidence_type role
     = _verify_proof_with_role w cd' evidence evidence_type role) ->
  get_ai_dispute_verdict w cd = get_ai_dispute_verdict w cd'.
Proof.
  intros Hclassify Hlinks Hlinks' Htruthy Hfirst Hverify.
  rewrite (surjective_pairing (get_ai_dispute_verdict w cd)),
    (surjective_pairing (get_ai_dispute_verdict w cd')).
  change (fst (get_ai_dispute_verdict w cd)) with (result (get_ai_dispute_verdict w cd)).
  change (snd (get_ai_dispute_verdict w cd)) with (calls (get_ai_dispute_verdict w cd)).
  change (fst (get_ai_dispute_verdict w cd')) with (result (get_ai_dispute_verdict w cd')).
  change (snd (get_ai_dispute_verdict w cd')) with (calls (get_ai_dispute_verdict w cd')).
  unfold get_ai_dispute_verdict. run. rewrite Hclassify.
  destruct (result (_classify_freelancer_role w cd')) as [role | e]; run; [| reflexivity].
  destruct (String.eqb role "Unknown"); run; [reflexivity |].
  rewrite Hlinks, Hlinks'. run. rewrite Htruthy.
  destruct (Py.truthy links'); cbv beta iota delta [negb]; run; [| reflexivity].
  rewrite Hfirst. destruct (Py.getitem0 links') as [proof_url | e]; run; [| reflexivity].
  destruct (result (gather_evidence w proof_url)) as [gathered | e]; run; [| reflexivity].
  destruct (Py.truthy (fst gathered)); cbv beta iota delta [negb]; run; [| reflexivity].
  rewrite Hverify. reflexivity.
Qed.

(** X17: links after the first one are never looked at: two contracts
    that differ only in the links after the first run the same, result and
    calls alike. *)
Theorem only_first_link_is_used (w : env) (pre post : list (string * pyval))
    (first : pyval) (others others' : list pyval) :
  get_ai_dispute_verdict w (VDict (pre ++ ("links", VList (first :: others)) :: post))
  = get_ai_dispute_verdict w (VDict (pre ++ ("links", VList (first :: others')) :: post)).
Proof.
  set (d := (pre ++ ("links", VList (first :: others)) :: post)%list).
  set (d' := (pre ++ ("links", VList (first :: others')) :: post)%list).
  assert (Hother : forall k, String.eqb k "links" = false -> Py.lookup k d = Py.lookup k d').
  { intros k Hk. unfold d, d'. rewrite !lookup_app_binding, Hk. reflexivity. }
  assert (Hrequest : classify_request w (VDict d) = classify_request w (VDict d')).
  { unfold classify_request. cbn [Py.get].
    now rewrite (Hother "projectDescription" eq_refl), (Hother "task" eq_refl). }
  assert (Hprompt : forall evidence ety,
            verify_prompt w (VDict d) evidence ety = verify_prompt w (VDict d') evidence ety).
  { intros evidence ety. unfold verify_prompt. cbn [Py.get].
    now rewrite (Hother "projectDescription" eq_refl), (Hother "task" eq_refl). }
  assert (Hlinks : exists links links',
            Py.get (VDict d) "links" (VList []) = Ok links /\
            Py.get (VDict d') "links" (VList []) = Ok links' /\
            Py.truthy links = Py.truthy links' /\ Py.getitem0 links = Py.getitem0 links').
  { cbn [Py.get]. unfold d, d'. rewrite !lookup_app_binding.
    destruct (Py.lookup "links" pre) as [x |]; eexists _, _; repeat split. }
  destruct Hlinks as (links & links' & Hl & Hl' & Htruthy & Hfirst).
  apply (verdict_congruence w (VDict d) (VDict d') links links' ); try assumption.
  - unfold _classify_freelancer_role. now rewrite Hrequest.
  - intros evidence ety role. unfold _verify_proof_with_role. now rewrite Hprompt.
Qed.

(** ** The classifier's request and the cleaned role *)

Lemma all_str_map (items : list string) : Py.all_str (map VStr items) = Ok items.
Proof.
  induction items as [| s items IH]; [reflexivity |].
  cbn [map Py.all_str res_bind]. now rewrite IH.
Qed.

Lemma all_str_not_str (items : list pyval) :
  Exists (fun x => forall s, x <> VStr s) items -> exists e, Py.all_str items = Raise e.
Proof.
  induction 1 as [x items Hx | x items _ (e & IH)].
  - destruct x; try (eexists; reflexivity). now elim (Hx s).
  - destruct x; try (eexists; reflexivity). cbn [Py.all_str res_bind]. rewrite IH.
    now exists e.
Qed.

(** X18: what the classifier sends and when it cannot.  With a text
    description and a list of text tasks the request is the instruction, the
    description and the tasks joined by a newline and "- "; a contract with
    neither key gives the request with both fields empty (no failure on empty
    input); a task list with an entry that is not text gives no request at
    all, and the classifier answers "Unknown" without calling the model. *)
Theorem classify_request_by_contract (w : env) (d : list (string * pyval)) :
  (forall description tasks,
     Py.lookup "projectDescription" d = Some (VStr description) ->
     Py.lookup "task" d = Some (VList (map VStr tasks)) ->
     classify_request w (VDict d)
     = Ok (classify_instruction ++ nl ++ nl ++ "**Contract Details:**" ++ nl
           ++ "- Project Description: " ++ description ++ nl
           ++ "- Tasks: " ++ String.concat (nl ++ "- ") tasks)) /\
  (Py.lookup "projectDescription" d = None -> Py.lookup "task" d = None ->
     classify_request w (VDict d)
     = Ok (classify_instruction ++ nl ++ nl ++ "**Contract Details:**" ++ nl
           ++ "- Project Description: " ++ nl ++ "- Tasks: ")) /\
  (forall items,
     Py.lookup "task" d = Some (VList items) ->
     Exists (fun x => forall s, x <> VStr s) items ->
     _classify_freelancer_role w (VDict d)
     = (Ok "Unknown", [Enter Fn_classify_freelancer_role])).
Proof.
  repeat split.
  - intros description tasks Hpd Htask. unfold classify_request. cbn [Py.get].
    rewrite Hpd, Htask. unfold Py.join. cbn [res_bind Py.iter].
    rewrite all_str_map. reflexivity.
  - intros Hpd Htask. unfold classify_request. cbn [Py.get]. rewrite Hpd, Htask. reflexivity.
  - intros items Htask Hbad.
    assert (Hrequest : exists e, classify_request w (VDict d) = Raise e).
    { unfold classify_request. cbn [Py.get]. rewrite Htask. unfold Py.join.
      cbn [res_bind Py.iter]. destruct (all_str_not_str items Hbad) as (e & ->).
      destruct (Py.lookup "projectDescription" d); eexists; reflexivity. }
    destruct Hrequest as (e & Hrequest).
    apply run_eq; [now rewrite classify_result, Hrequest
                  | now rewrite classify_calls, Hrequest].
Qed.

Lemma classify_request_by_contract_witness :
  classify_request Scenario.all_up (Scenario.contract [])
  = Ok (classify_instruction ++ nl ++ nl ++ "**Contract Details:**" ++ nl
        ++ "- Project Description: " ++ "Build a landing page" ++ nl
        ++ "- Tasks: " ++ "design mockup").
Proof.
  exact (proj1 (classify_request_by_contract Scenario.all_up
                  [("projectDescription", VStr "Build a landing page");
                   ("task", VList [VStr "design mockup"]);
                   ("links", VList [])])
           "Build a landing page" ["design mockup"] eq_refl eq_refl).
Defined.

Lemma replace_char_unfold (c a : ascii) (r : string) :
  replace (String c EmptyString) EmptyString (String a r) =
  if Ascii.eqb c a then replace (String c EmptyString) EmptyString r
  else String a (replace (String c EmptyString) EmptyString r).
Proof.
  unfold replace. cbn [replace_from prefix String.length Nat.sub].
  destruct (ascii_dec c a) as [-> | Hne].
  - rewrite Ascii.eqb_refl. now destruct r.
  - apply Ascii.eqb_neq in Hne. now rewrite Hne.
Qed.

Lemma replace_char_gone (c : ascii) (s : string) :
  ~ has_char c (replace (String c EmptyString) EmptyString s).
Proof.
  unfold has_char. induction s as [| a r IH]; [intros [] |].
  rewrite replace_char_unfold. destruct (Ascii.eqb c a) eqn:E; [exact IH |].
  cbn. intros [-> | H]; [now rewrite Ascii.eqb_refl in E | now apply IH].
Qed.

(** X19: the role the classifier returns never holds a double quote,
    whatever the model answered. *)
Theorem role_has_no_double_quote (w : env) (cd : pyval) (role : string) :
  result (_classify_freelancer_role w cd) = Ok role -> ~ has_char "034" role.
Proof.
  rewrite classify_result. intros [= <-].
  destruct (classify_request w cd) as [request |];
    [| unfold has_char; cbn; intuition discriminate].
  destruct (generate_content w request) as [text |];
    [| unfold has_char; cbn; intuition discriminate].
  apply replace_char_gone.
Qed.

Lemma role_has_no_double_quote_witness : ~ has_char "034" "Plumber".
Proof.
  apply (role_has_no_double_quote Scenario.ai_off_list (Scenario.contract [])).
  vm_compute. reflexivity.
Defined.

(* ================================================================= *)
(** * [app.py]: properties of [upload_to_github] *)

Lemma returned_wbind {A B} (m : App.W A) (k : A -> App.W B) :
  App.returned (App.wbind m k) =
  match App.returned m with Ok a => App.returned (k a) | Raise e => Raise e end.
Proof.
  destruct m as [[a | e] t]; unfold App.wbind, App.returned; cbn [fst]; [| reflexivity].
  destruct (k a); reflexivity.
Qed.

Lemma sent_wbind {A B} (m : App.W A) (k : A -> App.W B) :
  App.sent (App.wbind m k) =
  (App.sent m ++ match App.returned m with Ok a => App.sent (k a) | Raise _ => [] end)%list.
Proof.
  destruct m as [[a | e] t]; unfold App.wbind, App.returned, App.sent; cbn [fst snd].
  - destruct (k a); reflexivity.
  - now rewrite app_nil_r.
Qed.

Lemma W_eq {A} (m : App.W A) (r : res A) (t : list App.request) :
  App.returned m = r -> App.sent m = t -> m = (r, t).
Proof. destruct m. unfold App.returned, App.sent. cbn. now intros -> ->. Qed.

Lemma returned_pair {A} (r : res A) (t : list App.request) : App.returned (r, t) = r.
Proof. reflexivity. Qed.

Lemma sent_pair {A} (r : res A) (t : list App.request) : App.sent (r, t) = t.
Proof. reflexivity. Qed.

Create Rewrite HintDb wrun.
#[local] Hint Rewrite @returned_wbind @sent_wbind @returned_pair @sent_pair app_nil_r : wrun.

(** Rewrite with the equations above and reduce the matches they expose. *)
Ltac wrun :=
  repeat (progress (autorewrite with wrun;
                    cbv beta iota zeta delta [App.wlift App.wret])).

(** Destruct what the run branches on: a result, then a test. *)
Ltac wbranch :=
  repeat (wrun;
          match goal with
          | |- context [match ?r with Ok _ => _ | Raise _ => _ end] => destruct r
          | |- context [if ?c then _ else _] => destruct c
          end);
  wrun.

(** The sha as line 62 reads it from the answer of the GET. *)
Lemma upload_sha_read (r : App.reply) :
  (let? body := App.reply_json r in
   let? sha := Py.get body "sha" VNone in
   let? printed := print_link sha in
   Ok sha)%res
  = match (let? body := App.reply_json r in Py.get body "sha" VNone)%res with
    | Ok sha => match print_link sha with Ok _ => Ok sha | Raise e => Raise e end
    | Raise e => Raise e
    end.
Proof.
  unfold res_bind. destruct (App.reply_json r) as [body |]; [| reflexivity].
  destruct (Py.get body "sha" VNone); reflexivity.
Qed.



(** X21: the PUT says "update" exactly when the GET found the file.  With
    the file name and the address printed, the file read and the GET answered,
    a status other than 200 gives a PUT without "sha"; a 200 whose body has a
    sha that is not empty, and that can be printed, gives a PUT with that sha.
    Both requests go to the same contents address; the GET names the branch in
    its query parameter "ref", the PUT in the "branch" of its body, next to
    the encoded file as "content". *)
Theorem upload_sends_sha_of_existing_file (s : App.services) (file_path file_name data : string)
    (r : App.reply) :
  encodable file_name = true ->
  App.read_file s file_path = Ok data ->
  encodable (App.contents_url s file_name) = true ->
  App.http_get s (App.contents_url s file_name) [("ref", App.GITHUB_BRANCH s)] = Ok r ->
  let url := App.contents_url s file_name in
  let fields := [("message", VStr ("Update contract " ++ file_name));
                 ("content", VStr (App.b64encode s data));
                 ("branch", VStr (App.GITHUB_BRANCH s))] in
  (App.reply_status r <> 200%Z ->
     App.sent (App.upload_to_github s file_path file_name)
     = [App.HttpGet url [("ref", App.GITHUB_BRANCH s)]; App.HttpPut url (VDict fields)]) /\
  (forall body sha,
     App.reply_status r = 200%Z ->
     App.reply_json r = Ok body ->
     Py.get body "sha" VNone = Ok sha ->
     (forall x, sha = VStr x -> encodable x = true) ->
     App.sent (App.upload_to_github s file_path file_name)
     = [App.HttpGet url [("ref", App.GITHUB_BRANCH s)];
        App.HttpPut url (VDict (if Py.truthy sha then fields ++ [("sha", sha)] else fields)%list)]).
Proof.
  intros Hname Hread Haddress Hget url fields. split.
  - intros Hstatus. apply Z.eqb_neq in Hstatus.
    unfold App.upload_to_github. cbn [print_link]. rewrite Hname. wrun.
    rewrite Hread. wrun. rewrite Haddress. wrun. rewrite Hget. wrun.
    rewrite Hstatus. wrun. wbranch; reflexivity.
  - intros body sha Hstatus Hbody Hsha Hprintable. apply Z.eqb_eq in Hstatus.
    unfold App.upload_to_github. cbn [print_link]. rewrite Hname. wrun.
    rewrite Hread. wrun. rewrite Haddress. wrun. rewrite Hget. wrun.
    rewrite Hstatus. wrun. rewrite Hbody. cbn [res_bind]. rewrite Hsha. cbn [res_bind].
    rewrite (print_link_encodable sha Hprintable). cbn [res_bind]. wrun.
    unfold App.payload_of, url, fields.
    destruct (Py.truthy sha); rewrite ?app_nil_r; wbranch; reflexivity.
Qed.

Lemma upload_sends_sha_of_existing_file_witness :
  App.sent (App.upload_to_github AppScenario.update "/srv/c-17.pdf" "c-17.pdf")
  = [App.HttpGet "https://api.github.com/repos/acme/contracts/contents/c-17.pdf?t=1718000000"
       [("ref", "main")];
     App.HttpPut "https://api.github.com/repos/acme/contracts/contents/c-17.pdf?t=1718000000"
       (VDict [("message", VStr "Update contract c-17.pdf"); ("content", VStr "JVBERg==");
               ("branch", VStr "main"); ("sha", VStr "3d21ec5")])].
Proof.
  assert (Hname : encodable "c-17.pdf" = true) by (vm_compute; reflexivity).
  assert (Haddress : encodable (App.contents_url AppScenario.update "c-17.pdf") = true)
    by (vm_compute; reflexivity).
  refine (proj2 (upload_sends_sha_of_existing_file AppScenario.update "/srv/c-17.pdf"
                   "c-17.pdf" "%PDF" (AppScenario.reply_of 200 [("sha", VStr "3d21ec5")])
                   Hname eq_refl Haddress eq_refl)
            (VDict [("sha", VStr "3d21ec5")]) (VStr "3d21ec5") eq_refl eq_refl eq_refl _).
  intros x [= <-]. vm_compute. reflexivity.
Defined.

(** X22: once the PUT is sent, its answer decides the upload.  A status
    200 or 201 returns the raw address of the file; any other status with an
    object as body raises [Exception] with the status and the body's "message"
    (the response text when there is none); any other status with a body that
    does not decode raises the decoding error instead. *)
Theorem upload_outcome_follows_put (s : App.services) (file_path file_name : string)
    (payload : pyval) (response : App.reply) :
  App.sent (App.upload_to_github s file_path file_name)
  = [App.HttpGet (App.contents_url s file_name) [("ref", App.GITHUB_BRANCH s)];
     App.HttpPut (App.contents_url s file_name) payload] ->
  App.http_put s (App.contents_url s file_name) payload = Ok response ->
  (App.reply_status response = 200%Z \/ App.reply_status response = 201%Z ->
     App.returned (App.upload_to_github s file_path file_name)
     = Ok (App.raw_url s file_name)) /\
  (App.reply_status response <> 200%Z -> App.reply_status response <> 201%Z ->
     (forall d, App.reply_json response = Ok (VDict d) ->
        App.returned (App.upload_to_github s file_path file_name)
        = Raise (Exn (OtherException "Exception")
                   ("GitHub upload failed with status "
                    ++ App.decimal (App.reply_status response) ++ ": "
                    ++ App.fmt s (match Py.lookup "message" d with
                                  | Some m => m
                                  | None => VStr (App.reply_text response)
                                  end)))) /\
     (forall e, App.reply_json response = Raise e ->
        App.returned (App.upload_to_github s file_path file_name) = Raise e)).
Proof.
  intros Hsent Hput.
  assert (Hrun : App.returned (App.upload_to_github s file_path file_name) =
                 if ((App.reply_status response =? 200)
                     || (App.reply_status response =? 201))%Z
                 then Ok (App.raw_url s file_name)
                 else match (let? body := App.reply_json response in
                             Py.get body "message" (VStr (App.reply_text response)))%res with
                      | Ok error_message =>
                          Raise (Exn (OtherException "Exception")
                                   ("GitHub upload failed with status "
                                    ++ App.decimal (App.reply_status response) ++ ": "
                                    ++ App.fmt s error_message))
                      | Raise e => Raise e
                      end).
  { revert Hsent. unfold App.upload_to_github. wrun.
    destruct (print_link (VStr file_name)) as [[] |]; wrun; [| discriminate].
    destruct (App.read_file s file_path) as [data |]; wrun; [| discriminate].
    destruct (print_link (VStr (App.contents_url s file_name))) as [[] |]; wrun;
      [| discriminate].
    destruct (App.http_get s (App.contents_url s file_name) [("ref", App.GITHUB_BRANCH s)])
      as [r |]; wrun; [| discriminate].
    destruct (App.returned (if (App.reply_status r =? 200)%Z
                            then ((let? body := App.reply_json r in
                                   let? sha := Py.get body "sha" VNone in
                                   let? printed := print_link sha in
                                   Ok sha)%res, [])
                            else (Ok VNone, []))) as [sha |] eqn:Hsha.
    2:{ destruct (App.reply_status r =? 200)%Z; wrun; discriminate. }
    assert (Hnone : App.sent (if (App.reply_status r =? 200)%Z
                              then ((let? body := App.reply_json r in
                                     let? sha := Py.get body "sha" VNone in
                                     let? printed := print_link sha in
                                     Ok sha)%res, [])
                              else (Ok VNone, [])) = [])
      by (destruct (App.reply_status r =? 200)%Z; reflexivity).
    rewrite Hnone. wrun. cbn [app].
    destruct (App.http_put s (App.contents_url s file_name)
                (App.payload_of s file_name (App.b64encode s data) sha)) as [response' |] eqn:P;
      wrun.
    - intros Hsent. assert (Hpayload : App.payload_of s file_name (App.b64encode s data) sha
                                       = payload).
      { destruct ((App.reply_status response' =? 200)
                  || (App.reply_status response' =? 201))%Z;
          wrun; [now injection Hsent |].
        destruct (let? body := App.reply_json response' in
                  Py.get body "message" (VStr (App.reply_text response')))%res;
          wrun; now injection Hsent. }
      rewrite Hpayload, Hput in P. injection P as <-.
      destruct ((App.reply_status response =? 200)
                || (App.reply_status response =? 201))%Z; wrun; [reflexivity |].
      destruct (let? body := App.reply_json response in
                Py.get body "message" (VStr (App.reply_text response)))%res; reflexivity.
    - intros Hsent. assert (Hpayload : App.payload_of s file_name (App.b64encode s data) sha
                                       = payload) by (now injection Hsent).
      rewrite Hpayload, Hput in P. discriminate P. }
  rewrite Hrun. split.
  - intros [H | H]; rewrite H; reflexivity.
  - intros H200 H201. apply Z.eqb_neq in H200, H201. rewrite H200, H201. cbn [orb]. split.
    + intros d ->. reflexivity.
    + intros e ->. reflexivity.
Qed.

Lemma upload_outcome_follows_put_witness :
  App.returned (App.upload_to_github AppScenario.refused "/srv/c-17.pdf" "c-17.pdf")
  = Raise (Exn (OtherException "Exception")
             "GitHub upload failed with status 422: Invalid request.").
Proof.
  refine (proj1 (proj2 (upload_outcome_follows_put AppScenario.refused
            "/srv/c-17.pdf" "c-17.pdf"
            (VDict [("message", VStr "Update contract c-17.pdf"); ("content", VStr "JVBERg==");
                    ("branch", VStr "main")])
            (AppScenario.reply_of 422 [("message", VStr "Invalid request.")])
            _ eq_refl) _ _) [("message", VStr "Invalid request.")] eq_refl).
  - vm_compute. reflexivity.
  - discriminate.
  - discriminate.
Defined.

(** X23: an address returned by the upload is always the raw address
    built from the repository, the branch and the file name, whatever the host
    answered; and it is returned only after a GET and a PUT to the contents
    address, the PUT answered with 200 or 201. *)
Theorem upload_returns_raw_url_only (s : App.services) (file_path file_name address : string) :
  App.returned (App.upload_to_github s file_path file_name) = Ok address ->
  address = "https://raw.githubusercontent.com/" ++ App.fmt_env (App.GITHUB_REPO s) ++ "/"
            ++ App.GITHUB_BRANCH s ++ "/" ++ file_name /\
  exists payload response,
    App.sent (App.upload_to_github s file_path file_name)
    = [App.HttpGet (App.contents_url s file_name) [("ref", App.GITHUB_BRANCH s)];
       App.HttpPut (App.contents_url s file_name) payload] /\
    App.http_put s (App.contents_url s file_name) payload = Ok response /\
    (App.reply_status response = 200%Z \/ App.reply_status response = 201%Z).
Proof.
  unfold App.upload_to_github. wrun.
  destruct (print_link (VStr file_name)) as [[] |]; wrun; [| discriminate].
  destruct (App.read_file s file_path) as [data |]; wrun; [| discriminate].
  destruct (print_link (VStr (App.contents_url s file_name))) as [[] |]; wrun;
    [| discriminate].
  destruct (App.http_get s (App.contents_url s file_name) [("ref", App.GITHUB_BRANCH s)])
    as [r |]; wrun; [| discriminate].
  assert (Hnone : App.sent (if (App.reply_status r =? 200)%Z
                            then ((let? body := App.reply_json r in
                                   let? sha := Py.get body "sha" VNone in
                                   let? printed := print_link sha in
                                   Ok sha)%res, [])
                            else (Ok VNone, [])) = [])
    by (destruct (App.reply_status r =? 200)%Z; reflexivity).
  rewrite Hnone.
  destruct (App.returned (if (App.reply_status r =? 200)%Z
                          then ((let? body := App.reply_json r in
                                 let? sha := Py.get body "sha" VNone in
                                 let? printed := print_link sha in
                                 Ok sha)%res, [])
                          else (Ok VNone, []))) as [sha |]; wrun; [| discriminate].
  destruct (App.http_put s (App.contents_url s file_name)
              (App.payload_of s file_name (App.b64encode s data) sha)) as [response |] eqn:P;
    wrun; [| discriminate].
  destruct ((App.reply_status response =? 200) || (App.reply_status response =? 201))%Z eqn:E;
    wrun.
  - intros [= <-]. split; [reflexivity |]. eexists _, response. repeat split; [exact P |].
    apply orb_prop in E. destruct E as [E | E]; apply Z.eqb_eq in E; [now left | now right].
  - destruct (let? body := App.reply_json response in
              Py.get body "message" (VStr (App.reply_text response)))%res; discriminate.
Qed.

Lemma upload_returns_raw_url_only_witness :
  "https://raw.githubusercontent.com/acme/contracts/main/c-17.pdf"
  = "https://raw.githubusercontent.com/" ++ App.fmt_env (App.GITHUB_REPO AppScenario.first_upload)
    ++ "/" ++ App.GITHUB_BRANCH AppScenario.first_upload ++ "/" ++ "c-17.pdf".
Proof.
  refine (proj1 (upload_returns_raw_url_only AppScenario.first_upload "/srv/c-17.pdf"
                   "c-17.pdf" _ _)).
  vm_compute. reflexivity.
Defined.

(* ================================================================= *)
(** * A first link that is not text *)

(** X24: a first link that is null, a boolean or a number cannot be
    searched for a substring: the pipeline raises the [TypeError] before any
    provider is entered, and the endpoint answers 500 with the fixed
    internal-error message (not 400, and not the reason about the proof). *)
Theorem non_text_first_link_is_internal_error (w : env) (body cd : pyval) (role : string)
    (first : pyval) :
  Py.get body "contractData" VNone = Ok cd ->
  reaches_provider w cd role first ->
  (first = VNone \/ (exists b, first = VBool b) \/ (exists z, first = VInt z)
   \/ (exists f, first = VFloat f)) ->
  (exists e, result (get_ai_dispute_verdict w cd) = Raise e) /\
  result (handle_dispute w (Ok body)) = Ok internal_error_answer /\
  providers_called (calls (handle_dispute w (Ok body))) = [].
Proof.
  intros Hbody Hreach Hfirst.
  assert (Hgather : gather_evidence w first = (Raise (TypeError "argument is not iterable"), [])).
  { unfold gather_evidence.
    destruct Hfirst as [-> | [(b & ->) | [(z & ->) | (f & ->)]]]; reflexivity. }
  assert (Hgr : result (gather_evidence w first) = Raise (TypeError "argument is not iterable"))
    by (now rewrite Hgather).
  assert (Hgc : calls (gather_evidence w first) = []) by (now rewrite Hgather).
  destruct (verdict_from_provider w cd role first Hreach) as [Hres Hcalls].
  rewrite Hgr in Hres, Hcalls. rewrite Hgc in Hcalls.
  rewrite !app_nil_r in Hcalls. split; [eexists; exact Hres |].
  assert (Htruthy : Py.truthy cd = true).
  { destruct Hreach as (links & _ & _ & Hlinks & Hitem).
    destruct cd as [| | | | | | d]; try discriminate Hlinks.
    destruct d; [| reflexivity]. cbn in Hlinks. injection Hlinks as <-. discriminate Hitem. }
  split.
  - unfold handle_dispute, is_Exception. run. rewrite Hbody. run. rewrite Htruthy.
    cbv beta iota delta [negb]. run. rewrite Hres. run. reflexivity.
  - unfold handle_dispute, is_Exception. run. rewrite Hbody. run. rewrite Htruthy.
    cbv beta iota delta [negb]. run. rewrite Hres. run. rewrite Hcalls.
    cbn [providers_called is_provider app]. apply providers_called_classify.
Qed.

Lemma non_text_first_link_is_internal_error_witness :
  result (handle_dispute Scenario.all_up (Ok (Scenario.body (Scenario.contract [VInt 7]))))
  = Ok internal_error_answer.
Proof.
  refine (proj1 (proj2 (non_text_first_link_is_internal_error Scenario.all_up
            (Scenario.body (Scenario.contract [VInt 7])) (Scenario.contract [VInt 7])
            "Web Developer" (VInt 7) eq_refl _ _))).
  - exists (VList [VInt 7]). repeat split; try (vm_compute; reflexivity). discriminate.
  - right. right. left. now exists 7%Z.
Defined.
